(** * The observability agent: semantic cache, intent classifier, capability
      router and session manager, embedded from the TypeScript sources.

    JavaScript numbers that carry similarity scores and confidences are
    binary64 floats ([PrimFloat.float]); counters and timestamps hold
    non-negative integers and are modelled by [N] and [Z].  A JavaScript
    string is a Rocq [string], one character per code unit.  Every awaited
    call either returns or throws: [outcome].  The external services (Workers
    AI, Vectorize, Durable Object storage, the clock) are inputs of the
    model. *)

From Stdlib Require Import Floats ZArith NArith String Ascii List Bool Lia.
From Stdlib Require Import DecimalString DecimalN DecimalPos.
Import ListNotations.

#[local] Set Warnings "-inexact-float".

Local Open Scope string_scope.
Local Open Scope list_scope.

Notation "s1 +++ s2" := (String.append s1 s2)
  (at level 60, right associativity).

(** ** Thrown values and outcomes of calls *)

(** What a [throw] carries: an [Error] object with its [message], or some
    other value ([error instanceof Error] is false). *)
Inductive thrown : Type :=
| ErrorObject (message : string)
| OtherThrown.

Inductive outcome (A : Type) : Type :=
| Returns (a : A)
| Throws (e : thrown).
Arguments Returns {A} a.
Arguments Throws {A} e.

(** Sequencing of awaited calls: a small monad interface, instantiated by
    [outcome] here and by the agent's stateful computations below. *)
Class Monad (M : Type -> Type) : Type := {
  ret : forall {A}, A -> M A;
  bind : forall {A B}, M A -> (A -> M B) -> M B
}.

Notation "x <- m ;; k" := (bind m (fun x => k))
  (at level 61, m at next level, right associativity).
Notation "m ;;; k" := (bind m (fun _ => k))
  (at level 61, right associativity).

Definition obind {A B} (m : outcome A) (k : A -> outcome B) : outcome B :=
  match m with
  | Returns a => k a
  | Throws e => Throws e
  end.

#[global] Instance outcome_Monad : Monad outcome :=
  {| ret := @Returns; bind := @obind |}.

(** [try { body } catch (error) { handler }] *)
Definition otry {A} (body : outcome A) (handler : thrown -> outcome A)
  : outcome A :=
  match body with
  | Returns a => Returns a
  | Throws e => handler e
  end.

(** [error instanceof Error ? error.message : 'Unknown error'] *)
Definition error_message (e : thrown) : string :=
  match e with
  | ErrorObject m => m
  | OtherThrown => "Unknown error"
  end.

(** ** JavaScript built-ins used by the sources *)

Definition nl : string := String (ascii_of_nat 10) EmptyString.

(** Template-literal rendering of a possibly [undefined] string. *)
Definition render (v : option string) : string :=
  match v with
  | Some s => s
  | None => "undefined"
  end.

(** [truthy] for strings: the empty string is falsy. *)
Definition nonempty (s : string) : bool :=
  match s with
  | EmptyString => false
  | String _ _ => true
  end.

(** [array.slice(-n)]: the last [n] elements, the whole array if shorter. *)
Definition slice_last {A} (n : nat) (l : list A) : list A :=
  skipn (length l - n) l.

(** [s.substring(0, n)] *)
Definition substring_to (n : nat) (s : string) : string :=
  String.substring 0 n s.

(** [array.join(sep)] *)
Definition join (sep : string) (l : list string) : string :=
  String.concat sep l.

(** Decimal digits of a non-negative integer. *)
Definition decimal (n : N) : string :=
  NilZero.string_of_uint (N.to_uint n).

(** [String(z)] for an integer. *)
Definition decimalZ (z : Z) : string :=
  if (z <? 0)%Z then "-" +++ decimal (Z.abs_N z) else decimal (Z.abs_N z).

(** The exact value of a finite double as a fraction [num / den]. *)
Definition exact_fraction (m : positive) (e : Z) : Z * Z :=
  if (0 <=? e)%Z then (Z.pos m * 2 ^ e, 1)%Z else (Z.pos m, 2 ^ (- e))%Z.

(** [Number.prototype.toFixed(1)].  A non-finite number prints as itself;
    a magnitude of at least 1e21 prints through [Number::toString], which
    is taken as a parameter; otherwise [n] is the integer nearest to
    [10 * |x|], the larger one on a tie, printed with one digit after the
    point, and a negative [x] gets a minus sign. *)
Definition toFixed1 (Number_toString : float -> string) (x : float) : string :=
  match Prim2SF x with
  | S754_nan => "NaN"
  | S754_infinity false => "Infinity"
  | S754_infinity true => "-Infinity"
  | S754_zero _ => "0.0"
  | S754_finite neg m e =>
      let '(num, den) := exact_fraction m e in
      let sign := if neg then "-" else EmptyString in
      if (10 ^ 21 * den <=? num)%Z
      then sign +++ Number_toString (PrimFloat.abs x)
      else
        let n := Z.to_N ((20 * num + den) / (2 * den)) in
        sign +++ decimal (n / 10) +++ "." +++ decimal (n mod 10)
  end.

(** ** Data model (types.ts) *)

Inductive Role : Type := system | user | assistant.

Definition role_name (r : Role) : string :=
  match r with
  | system => "system"
  | user => "user"
  | assistant => "assistant"
  end.

Record ChatMessage : Type := mkChatMessage {
  role : Role;
  content : string;
  timestamp : Z
}.

Record MCPConnections : Type := mkMCPConnections {
  conn_observability : bool;
  conn_documentation : bool;
  conn_bindings : bool
}.

(** [metadata.mcpCalls].  Besides the three declared counters the object
    can receive stray keys: [mcpCalls[source]++] on a key that is not there
    creates it with value NaN; [calls_stray] lists those keys. *)
Record MCPCalls : Type := mkMCPCalls {
  calls_observability : N;
  calls_documentation : N;
  calls_bindings : N;
  calls_stray : list string
}.

Record Metadata : Type := mkMetadata {
  totalQueries : N;
  cacheHits : N;
  mcpCalls : MCPCalls
}.

Record AgentState : Type := mkAgentState {
  sessionId : string;
  conversationHistory : list ChatMessage;
  mcpConnections : MCPConnections;
  lastActivity : Z;
  metadata : Metadata
}.

(** [Intent['type']]; [type_foreign] is a run-time value outside the declared
    union, named by its string rendering. *)
Inductive IntentType : Type :=
| error_logs | performance | how_to | api_reference
| list_resources | inspect_config | general
| type_foreign (rendering : string).

(** A non-null [Intent['targetMCP']] / [MCPResult['source']];
    [target_foreign] is a truthy run-time value outside the declared union,
    named by its string rendering (what a template literal or a property
    key makes of it). *)
Inductive MCPTarget : Type :=
| observability | documentation | bindings
| target_foreign (rendering : string).

Definition target_name (t : MCPTarget) : string :=
  match t with
  | observability => "observability"
  | documentation => "documentation"
  | bindings => "bindings"
  | target_foreign s => s
  end.

(** A JSON object of string-valued arguments. *)
Definition Params : Type := list (string * string).

Record Intent : Type := mkIntent {
  intent_type : IntentType;
  confidence : float;
  targetMCP : option MCPTarget;
  parameters : Params
}.

(** The structured error payload of the router. *)
Record ErrorPayload : Type := mkErrorPayload {
  error : bool;
  message : string;
  suggestion : string
}.

(** [MCPResult['data']]: [null], the demonstration payload of one of the
    three servers (only the fields that vary are kept), or an error
    payload. *)
Inductive MCPData : Type :=
| data_null
| data_observability (query timeRange isoTime : string)
| data_documentation (query product : string)
| data_bindings (query resourceType : string)
| data_error (payload : ErrorPayload).

Record MCPResult : Type := mkMCPResult {
  source : MCPTarget;
  data : MCPData;
  result_timestamp : Z;
  cached : bool
}.

Record MemorySearchResult : Type := mkMemorySearchResult {
  score : float;
  question : option string;
  answer : option string;
  mcpSource : option string;
  memory_timestamp : option Z
}.

(** ** External services *)

(** Workers AI.  A response of [None] is a falsy response. *)
Record EmbeddingOutput : Type := mkEmbeddingOutput {
  emb_data : option (list (list float))   (* [None]: [data] is not an array *)
}.

Record ToolCall : Type := mkToolCall {
  tool_name : string;
  tool_arguments : option Params
}.

Record HermesOutput : Type := mkHermesOutput {
  tool_calls : option (list ToolCall)
}.

Record LlamaOutput : Type := mkLlamaOutput {
  response : option string
}.

Record LLMMessage : Type := mkLLMMessage {
  msg_role : Role;
  msg_content : string
}.

Record Ai : Type := mkAi {
  run_embedding : string -> outcome (option EmbeddingOutput);
  run_hermes : list LLMMessage -> outcome (option HermesOutput);
  run_llama : list LLMMessage -> N -> float -> outcome (option LlamaOutput)
}.

(** Vectorize. *)
Record VectorMetadata : Type := mkVectorMetadata {
  md_question : option string;
  md_answer : option string;
  md_mcpSource : option string;
  md_timestamp : option Z
}.

Record VectorizeMatch : Type := mkVectorizeMatch {
  match_score : float;
  match_metadata : option VectorMetadata
}.

Record VectorEntry : Type := mkVectorEntry {
  entry_id : string;
  entry_values : list float;
  entry_metadata : VectorMetadata
}.

Record VectorizeIndex : Type := mkVectorizeIndex {
  vectorize_query : list float -> N -> outcome (list VectorizeMatch);
  vectorize_insert : list VectorEntry -> outcome unit
}.

(** ** semantic-memory.ts *)

Definition SIMILARITY_THRESHOLD : float := 0.85%float.

(** [match.metadata?.field] *)
Definition metadata_field {A} (f : VectorMetadata -> option A)
  (m : VectorizeMatch) : option A :=
  match match_metadata m with
  | Some md => f md
  | None => None
  end.

Definition result_of_match (m : VectorizeMatch) : MemorySearchResult :=
  {| score := match_score m;
     question := metadata_field md_question m;
     answer := metadata_field md_answer m;
     mcpSource := metadata_field md_mcpSource m;
     memory_timestamp := metadata_field md_timestamp m |}.

(** [x | 0]: a mathematical integer wrapped to a signed 32-bit one. *)
Definition toInt32 (z : Z) : Z := ((z + 2 ^ 31) mod 2 ^ 32 - 2 ^ 31)%Z.

(** One digit of [toString(36)]. *)
Definition digit36 (d : N) : ascii :=
  if (d <? 10)%N then ascii_of_N (48 + d) else ascii_of_N (87 + d).

Fixpoint toString36_digits (fuel : nat) (n : N) (acc : string) : string :=
  match fuel with
  | O => acc
  | S fuel' =>
      let acc' := String (digit36 (n mod 36)) acc in
      if (n / 36 =? 0)%N then acc' else toString36_digits fuel' (n / 36) acc'
  end.

(** [n.toString(36)] for a non-negative integer. *)
Definition toString36 (n : N) : string :=
  toString36_digits (S (N.size_nat n)) n EmptyString.

Fixpoint simpleHash_loop (str : string) (hash : Z) : Z :=
  match str with
  | EmptyString => hash
  | String c rest =>
      let char := Z.of_N (N_of_ascii c) in
      let hash1 := (toInt32 (hash * 2 ^ 5) - hash + char)%Z in
      simpleHash_loop rest (toInt32 hash1)
  end.

Definition simpleHash (str : string) : string :=
  toString36 (Z.abs_N (simpleHash_loop str 0%Z)).

Section SemanticMemory.

Variable ai : Ai.
Variable vectorize : VectorizeIndex.

(** [question.toLowerCase().trim().replace(/\s+/g, ' ')], a built-in. *)
Variable normalize : string -> string.

(** The two readings of [Date.now()] made by [store]. *)
Variable now_id now_stored : Z.

Definition generateEmbedding (text : string) : outcome (option (list float)) :=
  otry
    (let truncatedText := substring_to 1000 text in
     response <- run_embedding ai truncatedText ;;
     match response with
     | Some {| emb_data := Some (first :: _) |} => ret (Some first)
     | _ => ret None
     end)
    (fun _ => ret None).

Definition search (query : string) (threshold : float)
  : outcome (option MemorySearchResult) :=
  otry
    (embedding <- generateEmbedding query ;;
     match embedding with
     | None => ret None
     | Some embedding =>
         matches <- vectorize_query vectorize embedding 3%N ;;
         match matches with
         | top :: _ =>
             if (threshold <=? match_score top)%float
             then ret (Some (result_of_match top))
             else ret None
         | [] => ret None
         end
     end)
    (fun _ => ret None).

Definition generateId (question : string) : string :=
  let normalized := normalize question in
  simpleHash normalized +++ "-" +++ decimalZ now_id.

Definition store (question answer mcpSource : string) : outcome unit :=
  otry
    (embedding <- generateEmbedding question ;;
     match embedding with
     | None => ret tt
     | Some embedding =>
         vectorize_insert vectorize
           [ {| entry_id := generateId question;
                entry_values := embedding;
                entry_metadata :=
                  {| md_question := Some question;
                     md_answer := Some answer;
                     md_mcpSource := Some mcpSource;
                     md_timestamp := Some now_stored |} |} ]
     end)
    (fun _ => ret tt).

End SemanticMemory.

(** ** tool-definitions.ts *)

Definition SYSTEM_PROMPT : string :=
"You are an expert Cloudflare Workers observability and troubleshooting assistant.

Your role is to help developers debug distributed applications by:
1. Querying logs, traces, and metrics from Workers Observability
2. Searching Cloudflare documentation for how-to guides and API references
3. Inspecting Workers resources like KV, R2, D1, and Durable Objects

When responding:
- Be concise and actionable
- Cite specific data from MCP queries
- Suggest next steps for debugging
- Link to relevant documentation when helpful

You have access to three MCP servers:
- Observability: Real-time logs, traces, and analytics
- Documentation: Cloudflare API and platform documentation
- Bindings: Workers resource inspection and management".

(** ** Property lookup on an object literal *)

(** The properties every object literal inherits from [Object.prototype]. *)
Definition Object_prototype_properties : list string :=
  [ "constructor"; "hasOwnProperty"; "isPrototypeOf"; "propertyIsEnumerable";
    "toLocaleString"; "toString"; "valueOf"; "__proto__";
    "__defineGetter__"; "__defineSetter__";
    "__lookupGetter__"; "__lookupSetter__" ].

Definition inherited (key : string) : bool :=
  existsb (String.eqb key) Object_prototype_properties.

(** How the inherited value prints: [__proto__] is the prototype object,
    [constructor] the function [Object], the others functions of their own
    name. *)
Definition inherited_rendering (key : string) : string :=
  if String.eqb key "__proto__" then "[object Object]"
  else if String.eqb key "constructor"
       then "function Object() { [native code] }"
       else "function " +++ key +++ "() { [native code] }".

Fixpoint own_property {V} (table : list (string * V)) (key : string)
  : option V :=
  match table with
  | [] => None
  | (k, v) :: rest => if String.eqb k key then Some v else own_property rest key
  end.

(** [parameters?.key || fallback] on a JSON object of strings. *)
Definition param_or (parameters : Params) (key fallback : string) : string :=
  match own_property parameters key with
  | Some v => if nonempty v then v else fallback
  | None => fallback
  end.

(** ** llm-orchestrator.ts *)

Definition intent_type_table : list (string * IntentType) :=
  [ ("query_observability", error_logs);
    ("search_docs", how_to);
    ("query_bindings", list_resources) ].

Definition mcp_table : list (string * MCPTarget) :=
  [ ("query_observability", observability);
    ("search_docs", documentation);
    ("query_bindings", bindings) ].

(** [map[toolName] || 'general'] *)
Definition mapToolToIntentType (toolName : string) : IntentType :=
  match own_property intent_type_table toolName with
  | Some t => t
  | None =>
      if inherited toolName
      then type_foreign (inherited_rendering toolName)
      else general
  end.

(** [map[toolName] || null] *)
Definition mapToolToMCP (toolName : string) : option MCPTarget :=
  match own_property mcp_table toolName with
  | Some t => Some t
  | None =>
      if inherited toolName
      then Some (target_foreign (inherited_rendering toolName))
      else None
  end.

Section LLMOrchestrator.

Variable ai : Ai.

(** [JSON.stringify(mcpData, null, 2)], a built-in. *)
Variable JSON_stringify : MCPData -> string.

Definition classifier_instruction : string :=
  "You are an intent classifier for a Cloudflare observability agent. Determine which tool to call based on the user query.".

Definition classifyIntent (query : string) : outcome Intent :=
  otry
    (response <-
       run_hermes ai
         [ {| msg_role := system; msg_content := classifier_instruction |};
           {| msg_role := user; msg_content := query |} ] ;;
     match response with
     | Some {| tool_calls := Some (toolCall :: _) |} =>
         let toolName := tool_name toolCall in
         ret {| intent_type := mapToolToIntentType toolName;
                confidence := 0.9%float;
                targetMCP := mapToolToMCP toolName;
                parameters :=
                  match tool_arguments toolCall with
                  | Some args => args
                  | None => []
                  end |}
     | _ =>
         ret {| intent_type := general;
                confidence := 0.5%float;
                targetMCP := None;
                parameters := [] |}
     end)
    (fun _ =>
       ret {| intent_type := general;
              confidence := 0.3%float;
              targetMCP := None;
              parameters := [] |}).

(** [if (mcpData)]: only [null] is falsy. *)
Definition data_present (mcpData : MCPData) : bool :=
  match mcpData with
  | data_null => false
  | _ => true
  end.

Definition createFallbackResponse (query : string) (mcpData : MCPData)
  : string :=
  if data_present mcpData
  then "I found some information related to your query, but I'm having trouble formatting it. Here's the raw data:"
         +++ nl +++ nl +++ JSON_stringify mcpData
  else "I apologize, but I encountered an error processing your request. Please try again or rephrase your question.".

Definition synthesize (query : string) (mcpData : MCPData) (context : string)
  : outcome string :=
  otry
    (let messages :=
       [ {| msg_role := system; msg_content := SYSTEM_PROMPT |} ]
       ++ (if nonempty context
           then [ {| msg_role := system;
                     msg_content := "Previous context: " +++ context |} ]
           else [])
       ++ (if data_present mcpData
           then [ {| msg_role := system;
                     msg_content :=
                       "MCP Server Response:" +++ nl
                         +++ JSON_stringify mcpData |} ]
           else [])
       ++ [ {| msg_role := user; msg_content := query |} ] in
     response <- run_llama ai messages 1024%N 0.7%float ;;
     match response with
     | Some {| response := Some text |} =>
         if nonempty text then ret text
         else ret (createFallbackResponse query mcpData)
     | _ => ret (createFallbackResponse query mcpData)
     end)
    (fun _ => ret (createFallbackResponse query mcpData)).

Definition generateResponse (query : string) : outcome string :=
  otry
    (response <-
       run_llama ai
         [ {| msg_role := system; msg_content := SYSTEM_PROMPT |};
           {| msg_role := user; msg_content := query |} ]
         512%N 0.8%float ;;
     match response with
     | Some {| response := Some text |} =>
         if nonempty text then ret text
         else ret "I understand your question, but I need more specific information to help. Could you provide more details?"
     | _ =>
         ret "I understand your question, but I need more specific information to help. Could you provide more details?"
     end)
    (fun _ =>
       ret "I apologize, but I encountered an error processing your request. Please try rephrasing your question.").

End LLMOrchestrator.

(** ** mcp-router.ts *)

(** The three capability providers: the private methods the router
    dispatches to. *)
Record Providers : Type := mkProviders {
  queryObservability : string -> Params -> outcome MCPResult;
  searchDocumentation : string -> Params -> outcome MCPResult;
  queryBindings : string -> Params -> outcome MCPResult
}.

Section MCPRouter.

(** [Date.now()] and [new Date().toISOString()] at the time of the call. *)
Variable now : Z.
Variable now_iso : string.

(** The providers as the source has them: demonstration data, built
    without any call that can fail. *)
Definition demo_providers : Providers :=
  {| queryObservability := fun query parameters =>
       ret {| source := observability;
              data := data_observability query
                        (param_or parameters "timeRange" "1h") now_iso;
              result_timestamp := now;
              cached := false |};
     searchDocumentation := fun query parameters =>
       ret {| source := documentation;
              data := data_documentation query
                        (param_or parameters "product" "workers");
              result_timestamp := now;
              cached := false |};
     queryBindings := fun query parameters =>
       ret {| source := bindings;
              data := data_bindings query
                        (param_or parameters "resourceType" "all");
              result_timestamp := now;
              cached := false |} |}.

Variable providers : Providers.

Definition route_error (target : MCPTarget) (e : thrown) : MCPResult :=
  {| source := target;
     data := data_error
               {| error := true;
                  message := error_message e;
                  suggestion := "Please try rephrasing your query or check your Cloudflare account permissions." |};
     result_timestamp := now;
     cached := false |}.

Definition route (intent : Intent) (query : string) : outcome MCPResult :=
  match targetMCP intent with
  | None =>
      ret {| source := documentation;
             data := data_null;
             result_timestamp := now;
             cached := false |}
  | Some target =>
      otry
        (match target with
         | observability =>
             queryObservability providers query (parameters intent)
         | documentation =>
             searchDocumentation providers query (parameters intent)
         | bindings =>
             queryBindings providers query (parameters intent)
         | target_foreign rendering =>
             Throws (ErrorObject ("Unknown MCP target: " +++ rendering))
         end)
        (fun e => ret (route_error target e))
  end.

End MCPRouter.

Definition MCP_ENDPOINTS (target : MCPTarget) : option string :=
  match target with
  | observability => Some "https://observability.mcp.cloudflare.com/mcp"
  | documentation => Some "https://docs.mcp.cloudflare.com/mcp"
  | bindings => Some "https://bindings.mcp.cloudflare.com/mcp"
  | target_foreign _ => None
  end.

Definition getMCPEndpoint (target : MCPTarget) : option string :=
  MCP_ENDPOINTS target.

(** ** The agent (class ObservabilityAgent) *)

(** The objects the agent holds and calls: semantic memory, LLM
    orchestrator, MCP router.  As any call, each may return or throw. *)
Record Collaborators : Type := mkCollaborators {
  semanticMemory_search : string -> float -> outcome (option MemorySearchResult);
  semanticMemory_store : string -> string -> string -> outcome unit;
  llmOrchestrator_classifyIntent : string -> outcome Intent;
  llmOrchestrator_synthesize : string -> MCPData -> string -> outcome string;
  llmOrchestrator_generateResponse : string -> outcome string;
  mcpRouter_route : Intent -> string -> outcome MCPResult
}.

(** What the platform answers during one operation: the readings of
    [Date.now()] and the result of [ctx.storage.put]. *)
Record Platform : Type := mkPlatform {
  now_activity : Z;
  now_user : Z;
  now_assistant : Z;
  storage_put : AgentState -> outcome unit
}.

(** The Durable Object: the in-memory state and the value stored under the
    key ['state'], if any. *)
Record DurableObject : Type := mkDurableObject {
  state : AgentState;
  storage : option AgentState
}.

(** A method body: it reads and mutates the object, then returns or throws;
    the mutations made before a throw stay. *)
Definition Method (A : Type) : Type :=
  DurableObject -> outcome A * DurableObject.

Definition mbind {A B} (m : Method A) (k : A -> Method B) : Method B :=
  fun d =>
    match m d with
    | (Returns a, d') => k a d'
    | (Throws e, d') => (Throws e, d')
    end.

#[global] Instance Method_Monad : Monad Method :=
  {| ret := fun A (a : A) d => (Returns a, d); bind := @mbind |}.

Definition mtry {A} (body : Method A) (handler : thrown -> Method A)
  : Method A :=
  fun d =>
    match body d with
    | (Returns a, d') => (Returns a, d')
    | (Throws e, d') => handler e d'
    end.

(** [await collaborator.method(...)] *)
Definition await {A} (call : outcome A) : Method A :=
  fun d => (call, d).

Definition get_state : Method AgentState :=
  fun d => (Returns (state d), d).

Definition update (f : AgentState -> AgentState) : Method unit :=
  fun d => (Returns tt, {| state := f (state d); storage := storage d |}).

(** Field assignments. *)
Definition set_lastActivity (t : Z) (s : AgentState) : AgentState :=
  {| sessionId := sessionId s;
     conversationHistory := conversationHistory s;
     mcpConnections := mcpConnections s;
     lastActivity := t;
     metadata := metadata s |}.

Definition set_conversationHistory (h : list ChatMessage) (s : AgentState)
  : AgentState :=
  {| sessionId := sessionId s;
     conversationHistory := h;
     mcpConnections := mcpConnections s;
     lastActivity := lastActivity s;
     metadata := metadata s |}.

Definition set_mcpConnections (c : MCPConnections) (s : AgentState)
  : AgentState :=
  {| sessionId := sessionId s;
     conversationHistory := conversationHistory s;
     mcpConnections := c;
     lastActivity := lastActivity s;
     metadata := metadata s |}.

Definition set_metadata (m : Metadata) (s : AgentState) : AgentState :=
  {| sessionId := sessionId s;
     conversationHistory := conversationHistory s;
     mcpConnections := mcpConnections s;
     lastActivity := lastActivity s;
     metadata := m |}.

(** [this.state.metadata.totalQueries++] *)
Definition increment_totalQueries (s : AgentState) : AgentState :=
  set_metadata
    {| totalQueries := (totalQueries (metadata s) + 1)%N;
       cacheHits := cacheHits (metadata s);
       mcpCalls := mcpCalls (metadata s) |} s.

(** [this.state.metadata.cacheHits++] *)
Definition increment_cacheHits (s : AgentState) : AgentState :=
  set_metadata
    {| totalQueries := totalQueries (metadata s);
       cacheHits := (cacheHits (metadata s) + 1)%N;
       mcpCalls := mcpCalls (metadata s) |} s.

(** [mcpCalls[source]++] *)
Definition increment_call (source : MCPTarget) (c : MCPCalls) : MCPCalls :=
  match source with
  | observability =>
      {| calls_observability := (calls_observability c + 1)%N;
         calls_documentation := calls_documentation c;
         calls_bindings := calls_bindings c;
         calls_stray := calls_stray c |}
  | documentation =>
      {| calls_observability := calls_observability c;
         calls_documentation := (calls_documentation c + 1)%N;
         calls_bindings := calls_bindings c;
         calls_stray := calls_stray c |}
  | bindings =>
      {| calls_observability := calls_observability c;
         calls_documentation := calls_documentation c;
         calls_bindings := (calls_bindings c + 1)%N;
         calls_stray := calls_stray c |}
  | target_foreign key =>
      {| calls_observability := calls_observability c;
         calls_documentation := calls_documentation c;
         calls_bindings := calls_bindings c;
         calls_stray :=
           if existsb (String.eqb key) (calls_stray c)
           then calls_stray c
           else calls_stray c ++ [key] |}
  end.

Definition initial_state (id : string) (now : Z) : AgentState :=
  {| sessionId := id;
     conversationHistory := [];
     mcpConnections :=
       {| conn_observability := false;
          conn_documentation := false;
          conn_bindings := false |};
     lastActivity := now;
     metadata :=
       {| totalQueries := 0%N;
          cacheHits := 0%N;
          mcpCalls :=
            {| calls_observability := 0%N;
               calls_documentation := 0%N;
               calls_bindings := 0%N;
               calls_stray := [] |} |} |}.

(** The object right after construction on empty storage. *)
Definition new_agent (id : string) (now : Z) : DurableObject :=
  {| state := initial_state id now; storage := None |}.

(** [history.push(msg)], then [slice(-20)] if longer than 20. *)
Definition push_capped (msg : ChatMessage) (history : list ChatMessage)
  : list ChatMessage :=
  let pushed := history ++ [msg] in
  if (20 <? length pushed)%nat then slice_last 20 pushed else pushed.

Definition createErrorResponse (e : thrown) : string :=
  let message := error_message e in
  "I apologize, but I encountered an error processing your request: "
    +++ message +++ nl +++ nl
    +++ "Please try:" +++ nl
    +++ "- Rephrasing your question" +++ nl
    +++ "- Asking a more specific question" +++ nl
    +++ "- Checking if your Cloudflare account has the necessary permissions".

Section ObservabilityAgent.

(** [Number::toString], used by [toFixed] from 1e21 on. *)
Variable Number_toString : float -> string.

Variable c : Collaborators.
Variable p : Platform.

Definition saveState : Method unit :=
  fun d =>
    match storage_put p (state d) with
    | Returns _ => (Returns tt, {| state := state d; storage := Some (state d) |})
    | Throws _ => (Returns tt, d)
    end.

Definition addToHistory (r : Role) (text : string) (now : Z) : Method unit :=
  update (fun s =>
    set_conversationHistory
      (push_capped {| role := r; content := text; timestamp := now |}
         (conversationHistory s)) s).

Definition getConversationContext : Method string :=
  s <- get_state ;;
  let recent := slice_last 4 (conversationHistory s) in
  match recent with
  | [] => ret EmptyString
  | _ =>
      ret (join nl
             (map (fun msg =>
                     role_name (role msg) +++ ": "
                       +++ substring_to 200 (content msg))
                  recent))
  end.

Definition incrementMCPCounter (source : MCPTarget) : Method unit :=
  update (fun s =>
    set_metadata
      {| totalQueries := totalQueries (metadata s);
         cacheHits := cacheHits (metadata s);
         mcpCalls := increment_call source (mcpCalls (metadata s)) |} s).

(** The annotated answer of a cache hit. *)
Definition cached_answer (cachedResult : MemorySearchResult) : string :=
  "[Cached Answer - " +++ render (mcpSource cachedResult) +++ "]"
    +++ nl +++ nl +++ render (answer cachedResult) +++ nl +++ nl
    +++ "_This answer was retrieved from memory (similarity: "
    +++ toFixed1 Number_toString (score cachedResult * 100)%float
    +++ "%)_".

(** The [try] block of [query]. *)
Definition query_body (userMessage : string) : Method string :=
  cachedResult <-
    await (semanticMemory_search c userMessage SIMILARITY_THRESHOLD) ;;
  match cachedResult with
  | Some cachedResult =>
      update increment_cacheHits ;;;
      saveState ;;;
      ret (cached_answer cachedResult)
  | None =>
      intent <- await (llmOrchestrator_classifyIntent c userMessage) ;;
      answered <-
        match targetMCP intent with
        | Some _ =>
            mcpResult <- await (mcpRouter_route c intent userMessage) ;;
            incrementMCPCounter (source mcpResult) ;;;
            context <- getConversationContext ;;
            response <-
              await (llmOrchestrator_synthesize c userMessage
                       (data mcpResult) context) ;;
            ret (response, target_name (source mcpResult))
        | None =>
            response <-
              await (llmOrchestrator_generateResponse c userMessage) ;;
            ret (response, "none")
        end ;;
      let '(response, mcpSource) := answered in
      await (semanticMemory_store c userMessage response mcpSource) ;;;
      addToHistory user userMessage (now_user p) ;;;
      addToHistory assistant response (now_assistant p) ;;;
      saveState ;;;
      ret response
  end.

Definition query (userMessage : string) : Method string :=
  update (set_lastActivity (now_activity p)) ;;;
  update increment_totalQueries ;;;
  mtry (query_body userMessage)
       (fun e => ret (createErrorResponse e)).

Definition connectMCPs : Method (option string * option string * option string) :=
  update (set_mcpConnections
            {| conn_observability := true;
               conn_documentation := true;
               conn_bindings := true |}) ;;;
  saveState ;;;
  ret (getMCPEndpoint observability,
       getMCPEndpoint documentation,
       getMCPEndpoint bindings).

Definition getHistory : Method (list ChatMessage) :=
  s <- get_state ;;
  ret (slice_last 10 (conversationHistory s)).

Definition clearHistory : Method unit :=
  update (set_conversationHistory []) ;;;
  saveState ;;;
  ret tt.

Definition getStats : Method Metadata :=
  s <- get_state ;;
  ret (metadata s).

End ObservabilityAgent.

(** The collaborators as the constructor creates them: the semantic memory
    on the Vectorize and AI bindings, the orchestrator on the AI binding,
    the router with its demonstration providers. *)
Definition wired (ai : Ai) (vectorize : VectorizeIndex)
  (normalize : string -> string) (JSON_stringify : MCPData -> string)
  (now_id now_stored now_route : Z) (now_iso : string) : Collaborators :=
  {| semanticMemory_search := search ai vectorize;
     semanticMemory_store := store ai vectorize normalize now_id now_stored;
     llmOrchestrator_classifyIntent := classifyIntent ai;
     llmOrchestrator_synthesize := synthesize ai JSON_stringify;
     llmOrchestrator_generateResponse := generateResponse ai;
     mcpRouter_route := route now_route (demo_providers now_route now_iso) |}.

(** The constructor followed by [initializeState], when the object is
    created again over its storage: the stored state replaces the fresh one
    if [storage.get] returns one. *)
Definition reconstruct (now : Z) (get_fails : bool) (d : DurableObject)
  : DurableObject :=
  let fresh := initial_state (sessionId (state d)) now in
  {| state :=
       if get_fails then fresh
       else match storage d with
            | Some stored => stored
            | None => fresh
            end;
     storage := storage d |}.

(** ** Sessions: sequences of operations *)

Inductive Operation : Type :=
| handleQuery (c : Collaborators) (p : Platform) (userMessage : string)
| do_clearHistory (p : Platform)
| do_connectMCPs (p : Platform)
| do_getHistory
| do_getStats
| do_reconstruct (now : Z) (get_fails : bool).

Section Sessions.

Variable Number_toString : float -> string.

(** The object after one operation. *)
Definition perform (o : Operation) (d : DurableObject) : DurableObject :=
  match o with
  | handleQuery c p userMessage =>
      snd (query Number_toString c p userMessage d)
  | do_clearHistory p => snd (clearHistory p d)
  | do_connectMCPs p => snd (connectMCPs p d)
  | do_getHistory => snd (getHistory d)
  | do_getStats => snd (getStats d)
  | do_reconstruct now get_fails => reconstruct now get_fails d
  end.

(** The object after a sequence of operations, first to last. *)
Definition run (ops : list Operation) (d : DurableObject) : DurableObject :=
  fold_left (fun d o => perform o d) ops d.

End Sessions.

(** A history made of user/assistant turns. *)
Inductive paired : list ChatMessage -> Prop :=
| paired_nil : paired []
| paired_turn : forall u a rest,
    role u = user -> role a = assistant -> paired rest ->
    paired (u :: a :: rest).

(** Roles alternate, starting with the user (positions counted from 0):
    the messages at even positions are the user's, those at odd positions
    the assistant's. *)
Definition alternating (h : list ChatMessage) : Prop :=
  forall i m, nth_error h i = Some m ->
    role m = if Nat.even i then user else assistant.

(** A string that reads [-]digits.digit *)
Definition one_decimal_place (s : string) : Prop :=
  exists (sign : string) (whole tenth : N),
    (sign = EmptyString \/ sign = "-") /\ (tenth < 10)%N /\
    s = sign +++ decimal whole +++ "." +++ decimal tenth.

(** A double that is finite and of magnitude below 1e21. *)
Definition below_1e21 (x : float) : bool :=
  match Prim2SF x with
  | S754_zero _ => true
  | S754_finite _ m e =>
      let '(num, den) := exact_fraction m e in
      negb (10 ^ 21 * den <=? num)%Z
  | _ => false
  end.

(** The match list the index gives for a query, when the embedding and the
    index query both succeed. *)
Definition match_list (ai : Ai) (vectorize : VectorizeIndex) (query : string)
  : option (list VectorizeMatch) :=
  match generateEmbedding ai query with
  | Returns (Some embedding) =>
      match vectorize_query vectorize embedding 3%N with
      | Returns matches => Some matches
      | Throws _ => None
      end
  | _ => None
  end.

(** The provider the router calls for a declared target. *)
Definition provider_call (providers : Providers) (target : MCPTarget)
  (query : string) (parameters : Params) : option (outcome MCPResult) :=
  match target with
  | observability => Some (queryObservability providers query parameters)
  | documentation => Some (searchDocumentation providers query parameters)
  | bindings => Some (queryBindings providers query parameters)
  | target_foreign _ => None
  end.

(** ** Vocabulary of the statements *)

(** Appending the messages [msgs], oldest first, through [addToHistory]. *)
Definition append_messages (msgs : list ChatMessage) (d : DurableObject)
  : DurableObject :=
  fold_left
    (fun d m => snd (addToHistory (role m) (content m) (timestamp m) d))
    msgs d.

(** Twenty-five messages, numbered by their content. *)
Definition twenty_five_messages : list ChatMessage :=
  map (fun i => {| role := if Nat.even i then user else assistant;
                   content := decimal (N.of_nat i);
                   timestamp := Z.of_nat i |})
      (seq 0 25).

(** The object at the start of the [try] block of [query]. *)
Definition entered (p : Platform) (d : DurableObject) : DurableObject :=
  {| state := increment_totalQueries (set_lastActivity (now_activity p) (state d));
     storage := storage d |}.

(** Unfolding the methods of the agent down to functions on the object. *)
Ltac unfold_methods :=
  unfold query, query_body, connectMCPs, clearHistory, getHistory, getStats,
    addToHistory, incrementMCPCounter, getConversationContext, saveState;
  cbn [bind ret Method_Monad];
  unfold mbind, mtry, await, update, get_state.

(** Case analysis on the outcome of every call in the goal. *)
Ltac split_calls :=
  repeat match goal with
         | |- context [match ?x with _ => _ end] =>
             lazymatch x with
             | context [match _ with _ => _ end] => fail
             | _ => destruct x eqn:?
             end
         end.

(** The invariant of a session state: no more cache hits than queries, a
    history made of turns, at most 20 messages. *)
Definition state_ok (s : AgentState) : Prop :=
  (cacheHits (metadata s) <= totalQueries (metadata s))%N
  /\ paired (conversationHistory s)
  /\ length (conversationHistory s) <= 20.

(** The state in memory and the state in storage both satisfy it. *)
Definition object_ok (d : DurableObject) : Prop :=
  state_ok (state d)
  /\ forall stored, storage d = Some stored -> state_ok stored.

(** ** Inputs of the concrete runs *)

Definition example_nts (x : float) : string := "1e+21".

Definition example_normalize (s : string) : string := s.

Definition example_stringify (data : MCPData) : string := "{}".

(** An AI binding whose classifier call times out. *)
Definition example_ai : Ai :=
  {| run_embedding := fun _ =>
       Returns (Some {| emb_data := Some [[0.25%float; 0.5%float]] |});
     run_hermes := fun _ => Throws (ErrorObject "3046: Request timeout");
     run_llama := fun _ _ _ =>
       Returns (Some {| response := Some "Workers run on the edge." |}) |}.

(** An AI binding whose classifier selects the tool [name]. *)
Definition selecting_ai (name : string) : Ai :=
  {| run_embedding := run_embedding example_ai;
     run_hermes := fun _ =>
       Returns (Some {| tool_calls :=
                          Some [ {| tool_name := name;
                                    tool_arguments := None |} ] |});
     run_llama := run_llama example_ai |}.


Definition example_entry (s : float) : VectorizeMatch :=
  {| match_score := s;
     match_metadata :=
       Some {| md_question := Some "How do I set up a KV namespace?";
               md_answer := Some "Create it with wrangler.";
               md_mcpSource := Some "documentation";
               md_timestamp := Some 1700000000000%Z |} |}.

(** An index whose best match has score [s]. *)
Definition index_scoring (s : float) : VectorizeIndex :=
  {| vectorize_query := fun _ _ => Returns [example_entry s];
     vectorize_insert := fun _ => Returns tt |}.

Definition empty_index : VectorizeIndex :=
  {| vectorize_query := fun _ _ => Returns [];
     vectorize_insert := fun _ => Returns tt |}.

Definition example_platform : Platform :=
  {| now_activity := 1700000000100%Z;
     now_user := 1700000000200%Z;
     now_assistant := 1700000000300%Z;
     storage_put := fun _ => Returns tt |}.

Definition example_wired (ai : Ai) (vectorize : VectorizeIndex)
  : Collaborators :=
  wired ai vectorize example_normalize example_stringify
    1700000000150%Z 1700000000160%Z 1700000000120%Z "2023-11-14T22:13:20.120Z".

(** Collaborators whose semantic memory throws [e] on search. *)
Definition failing_search (e : thrown) : Collaborators :=
  {| semanticMemory_search := fun _ _ => Throws e;
     semanticMemory_store := fun _ _ _ => Returns tt;
     llmOrchestrator_classifyIntent :=
       llmOrchestrator_classifyIntent (example_wired example_ai empty_index);
     llmOrchestrator_synthesize :=
       llmOrchestrator_synthesize (example_wired example_ai empty_index);
     llmOrchestrator_generateResponse :=
       llmOrchestrator_generateResponse (example_wired example_ai empty_index);
     mcpRouter_route :=
       mcpRouter_route (example_wired example_ai empty_index) |}.

(** Providers whose observability call fails. *)
Definition failing_providers : Providers :=
  {| queryObservability := fun _ _ =>
       Throws (ErrorObject "503 Service Unavailable");
     searchDocumentation :=
       searchDocumentation (demo_providers 0%Z "1970-01-01T00:00:00.000Z");
     queryBindings :=
       queryBindings (demo_providers 0%Z "1970-01-01T00:00:00.000Z") |}.

Definition logs_intent : Intent :=
  {| intent_type := error_logs;
     confidence := 0.9%float;
     targetMCP := Some observability;
     parameters := [] |}.

(** ** tool-definitions.ts: the tools and the intent tables *)

(** A tool offered to the classifier: its name, the names of its
    parameters and the required ones (descriptions left out). *)
Record ToolDefinition : Type := mkToolDefinition {
  tool_def_name : string;
  tool_def_properties : list string;
  tool_def_required : list string
}.

Definition TOOLS : list ToolDefinition :=
  [ {| tool_def_name := "query_observability";
       tool_def_properties := ["query"; "timeRange"; "filters"];
       tool_def_required := ["query"] |};
    {| tool_def_name := "search_docs";
       tool_def_properties := ["query"; "product"; "includeExamples"];
       tool_def_required := ["query"] |};
    {| tool_def_name := "query_bindings";
       tool_def_properties := ["resourceType"; "action"; "resourceName"];
       tool_def_required := ["resourceType"; "action"] |} ].

Definition INTENT_TO_MCP_MAP : list (string * string) :=
  [ ("error_logs", "observability");
    ("performance", "observability");
    ("how_to", "documentation");
    ("api_reference", "documentation");
    ("list_resources", "bindings");
    ("inspect_config", "bindings") ].

Definition INTENT_TO_TOOL_MAP : list (string * string) :=
  [ ("error_logs", "query_observability");
    ("performance", "query_observability");
    ("how_to", "search_docs");
    ("api_reference", "search_docs");
    ("list_resources", "query_bindings");
    ("inspect_config", "query_bindings") ].

(** The string an intent type is at run time. *)
Definition intent_type_name (t : IntentType) : string :=
  match t with
  | error_logs => "error_logs"
  | performance => "performance"
  | how_to => "how_to"
  | api_reference => "api_reference"
  | list_resources => "list_resources"
  | inspect_config => "inspect_config"
  | general => "general"
  | type_foreign s => s
  end.

(** One of the three targets of the declared union. *)
Definition declared (t : MCPTarget) : bool :=
  match t with
  | target_foreign _ => false
  | _ => true
  end.

(** ** The HTTP interface of the Durable Object (ObservabilityAgent.fetch) *)

(** The parsed JSON body of a request, with the fields the handlers read;
    an absent field is [None]. *)
Record RequestBody : Type := mkRequestBody {
  body_message : option string;
  body_sessionId : option string
}.

(** A request: the path of its URL, its method, the [sessionId] search
    parameter, and what [await request.json()] followed by the
    destructuring of the result gives: it throws when the body is not JSON
    or is [null]. *)
Record Request : Type := mkRequest {
  req_path : string;
  req_method : string;
  req_query_sessionId : option string;
  req_json : outcome RequestBody
}.

(** What a response carries. *)
Inductive ResponseBody : Type :=
| json_answer (response sessionId : string) (timestamp : Z)
    (cacheHits totalQueries : N)
| json_history (history : list ChatMessage)
| json_success
| json_stats (stats : Metadata)
| json_endpoints (endpoints : option string * option string * option string)
| json_error (error : string) (message : option string)
| json_welcome (timestamp : Z)
| json_health (timestamp : Z)
| text_not_found
| no_body
| asset (name : string).

Record Response : Type := mkResponse {
  status : N;
  body : ResponseBody;
  json_content_type : bool;
  cors_headers : bool
}.

(** [!value] for an optional string: absent and empty are falsy. *)
Definition truthy (v : option string) : option string :=
  match v with
  | Some s => if nonempty s then Some s else None
  | None => None
  end.

Definition json_response (code : N) (b : ResponseBody) : Response :=
  {| status := code; body := b; json_content_type := true;
     cors_headers := false |}.

Section AgentFetch.

Variable Number_toString : float -> string.
Variable c : Collaborators.
Variable p : Platform.

(** [this.sessionId], set by the constructor from [ctx.id]. *)
Variable this_sessionId : string.

(** The reading of [Date.now()] for the response. *)
Variable now_response : Z.

Definition fetch (request : Request) : Method Response :=
  let path := req_path request in
  mtry
    (if String.eqb path "/query" && String.eqb (req_method request) "POST"
     then
       parsed <- await (req_json request) ;;
       match truthy (body_message parsed) with
       | None => ret (json_response 400 (json_error "Message is required" None))
       | Some message =>
           response <- query Number_toString c p message ;;
           s <- get_state ;;
           ret (json_response 200
                  (json_answer response this_sessionId now_response
                     (cacheHits (metadata s)) (totalQueries (metadata s))))
       end
     else if String.eqb path "/history" && String.eqb (req_method request) "GET"
     then
       history <- getHistory ;;
       ret (json_response 200 (json_history history))
     else if String.eqb path "/clear" && String.eqb (req_method request) "POST"
     then
       clearHistory p ;;;
       ret (json_response 200 json_success)
     else if String.eqb path "/stats" && String.eqb (req_method request) "GET"
     then
       stats <- getStats ;;
       ret (json_response 200 (json_stats stats))
     else if String.eqb path "/connect" && String.eqb (req_method request) "POST"
     then
       endpoints <- connectMCPs p ;;
       ret (json_response 200 (json_endpoints endpoints))
     else
       ret {| status := 404; body := text_not_found;
              json_content_type := false; cors_headers := false |})
    (fun e =>
       ret (json_response 500
              (json_error "Internal server error" (Some (error_message e))))).

End AgentFetch.

(** One request served by the object, with what its environment answers
    meanwhile. *)
Record Exchange : Type := mkExchange {
  ex_collaborators : Collaborators;
  ex_platform : Platform;
  ex_now : Z;
  ex_request : Request
}.

(** The object after serving a sequence of requests. *)
Definition serve (Number_toString : float -> string) (this_sessionId : string)
  (exchanges : list Exchange) (d : DurableObject) : DurableObject :=
  fold_left
    (fun d x =>
       snd (fetch Number_toString (ex_collaborators x) (ex_platform x)
              this_sessionId (ex_now x) (ex_request x) d))
    exchanges d.

(** ** Vocabulary of the further properties *)

(** The queries a state accounts for: its cache hits and the calls of the
    three capabilities. *)
Definition accounted (s : AgentState) : N :=
  (cacheHits (metadata s)
   + calls_observability (mcpCalls (metadata s))
   + calls_documentation (mcpCalls (metadata s))
   + calls_bindings (mcpCalls (metadata s)))%N.

(** The number of queries in a sequence of operations. *)
Fixpoint count_queries (ops : list Operation) : N :=
  match ops with
  | [] => 0%N
  | handleQuery _ _ _ :: rest => (1 + count_queries rest)%N
  | _ :: rest => count_queries rest
  end.

(** No operation of the sequence constructs the object again. *)
Fixpoint without_reconstruction (ops : list Operation) : bool :=
  match ops with
  | [] => true
  | do_reconstruct _ _ :: _ => false
  | _ :: rest => without_reconstruction rest
  end.

(** The state in memory is the one in storage. *)
Definition persisted (d : DurableObject) : Prop :=
  storage d = Some (state d).

(** A property of the state in memory and of the state in storage. *)
Definition both (P : AgentState -> Prop) (d : DurableObject) : Prop :=
  P (state d) /\ forall stored, storage d = Some stored -> P stored.


(** One line of the conversation context. *)
Definition context_line (msg : ChatMessage) : string :=
  role_name (role msg) +++ ": " +++ substring_to 200 (content msg).

(** The routes the object answers. *)
Definition agent_routes : list (string * string) :=
  [ ("/query", "POST"); ("/history", "GET"); ("/clear", "POST");
    ("/stats", "GET"); ("/connect", "POST") ].

Definition routed (request : Request) : bool :=
  existsb
    (fun r => String.eqb (req_path request) (fst r)
              && String.eqb (req_method request) (snd r))
    agent_routes.

(** The operation a request asks for, if any. *)
Definition operation_of (x : Exchange) : list Operation :=
  let request := ex_request x in
  if String.eqb (req_path request) "/query"
     && String.eqb (req_method request) "POST"
  then match req_json request with
       | Returns parsed =>
           match truthy (body_message parsed) with
           | Some message =>
               [handleQuery (ex_collaborators x) (ex_platform x) message]
           | None => []
           end
       | Throws _ => []
       end
  else if String.eqb (req_path request) "/history"
          && String.eqb (req_method request) "GET"
  then [do_getHistory]
  else if String.eqb (req_path request) "/clear"
          && String.eqb (req_method request) "POST"
  then [do_clearHistory (ex_platform x)]
  else if String.eqb (req_path request) "/stats"
          && String.eqb (req_method request) "GET"
  then [do_getStats]
  else if String.eqb (req_path request) "/connect"
          && String.eqb (req_method request) "POST"
  then [do_connectMCPs (ex_platform x)]
  else [].

(** ** The Worker (index.ts) *)

(** The identity of a Durable Object: derived from a name by
    [idFromName], or made by [newUniqueId]. *)
Inductive ObjectId : Type :=
| id_of_name (name : string)
| id_unique (serial : N).

Definition ObjectId_eqb (a b : ObjectId) : bool :=
  match a, b with
  | id_of_name x, id_of_name y => String.eqb x y
  | id_unique m, id_unique n => N.eqb m n
  | _, _ => false
  end.

(** The objects of the namespace constructed so far. *)
Definition Namespace : Type := ObjectId -> option DurableObject.

Definition empty_namespace : Namespace := fun _ => None.

Definition put_object (id : ObjectId) (d : DurableObject) (ns : Namespace)
  : Namespace :=
  fun id' => if ObjectId_eqb id id' then Some d else ns id'.

(** What the platform answers during one request to the Worker: the
    request, what [env.ASSETS.fetch] does with it, the serial of
    [newUniqueId()], the environment of the addressed object, and the
    readings of [Date.now()] in its constructor (if it is constructed
    now), in its response and in the Worker. *)
Record WorkerCall : Type := mkWorkerCall {
  call_request : Request;
  call_assets : outcome Response;
  call_unique : N;
  call_collaborators : Collaborators;
  call_platform : Platform;
  call_constructed : Z;
  call_agent_now : Z;
  call_now : Z
}.

(** A handler of the Worker: it reads and changes the namespace, then
    returns or throws. *)
Definition Handler (A : Type) : Type :=
  Namespace -> outcome A * Namespace.

Definition hbind {A B} (m : Handler A) (k : A -> Handler B) : Handler B :=
  fun ns =>
    match m ns with
    | (Returns a, ns') => k a ns'
    | (Throws e, ns') => (Throws e, ns')
    end.

#[global] Instance Handler_Monad : Monad Handler :=
  {| ret := fun A (a : A) ns => (Returns a, ns); bind := @hbind |}.

Definition htry {A} (body : Handler A) (handler : thrown -> Handler A)
  : Handler A :=
  fun ns =>
    match body ns with
    | (Returns a, ns') => (Returns a, ns')
    | (Throws e, ns') => handler e ns'
    end.

Definition hawait {A} (call : outcome A) : Handler A :=
  fun ns => (call, ns).

Definition cors_json (code : N) (b : ResponseBody) : Response :=
  {| status := code; body := b; json_content_type := true;
     cors_headers := true |}.

Section Worker.

Variable Number_toString : float -> string.

(** [id.toString()] *)
Variable id_string : ObjectId -> string.

(** The message of the SyntaxError of [response.json()] on a body that is
    not JSON. *)
Variable not_json : string.

Variable call : WorkerCall.

(** [env.OBSERVABILITY_AGENT.get(id).fetch(request)]: the object is
    constructed on its first use. *)
Definition stub_fetch (id : ObjectId) (request : Request) : Handler Response :=
  fun ns =>
    let d := match ns id with
             | Some d => d
             | None => new_agent (id_string id) (call_constructed call)
             end in
    let result :=
      fetch Number_toString (call_collaborators call) (call_platform call)
        (id_string id) (call_agent_now call) request d in
    (fst result, put_object id (snd result) ns).

(** [await response.json()] *)
Definition response_json (r : Response) : outcome ResponseBody :=
  match body r with
  | text_not_found => Throws (ErrorObject not_json)
  | no_body => Throws (ErrorObject not_json)
  | asset _ => Throws (ErrorObject not_json)
  | b => Returns b
  end.

(** The request the Worker sends to the object. *)
Definition agent_request (path method : string) (message : option string)
  : Request :=
  {| req_path := path;
     req_method := method;
     req_query_sessionId := None;
     req_json :=
       match message with
       | Some m => Returns {| body_message := Some m; body_sessionId := None |}
       | None => Throws (ErrorObject "Unexpected end of JSON input")
       end |}.

Definition worker_fetch : Handler Response :=
  let request := call_request call in
  let path := req_path request in
  let method := req_method request in
  if String.eqb method "OPTIONS"
  then ret {| status := 200; body := no_body; json_content_type := false;
              cors_headers := true |}
  else if String.eqb path "/"
          || (negb (String.prefix "/api/" path)
              && negb (String.prefix "/agent/" path))
  then hawait (call_assets call)
  else
    htry
      (if String.eqb path "/api/welcome" && String.eqb method "GET"
       then ret (cors_json 200 (json_welcome (call_now call)))
       else if String.eqb path "/api/chat" && String.eqb method "POST"
       then
         parsed <- hawait (req_json request) ;;
         match truthy (body_message parsed) with
         | None => ret (cors_json 400 (json_error "Message is required" None))
         | Some message =>
             let id := match truthy (body_sessionId parsed) with
                       | Some sessionId => id_of_name sessionId
                       | None => id_unique (call_unique call)
                       end in
             agentResponse <-
               stub_fetch id (agent_request "/query" "POST" (Some message)) ;;
             data <- hawait (response_json agentResponse) ;;
             ret (cors_json 200 data)
         end
       else if String.eqb path "/api/history" && String.eqb method "GET"
       then
         match truthy (req_query_sessionId request) with
         | None => ret (cors_json 400 (json_error "sessionId is required" None))
         | Some sessionId =>
             response <-
               stub_fetch (id_of_name sessionId)
                 (agent_request "/history" "GET" None) ;;
             data <- hawait (response_json response) ;;
             ret (cors_json 200 data)
         end
       else if String.eqb path "/api/clear" && String.eqb method "POST"
       then
         parsed <- hawait (req_json request) ;;
         match truthy (body_sessionId parsed) with
         | None => ret (cors_json 400 (json_error "sessionId is required" None))
         | Some sessionId =>
             stub_fetch (id_of_name sessionId)
               (agent_request "/clear" "POST" None) ;;;
             ret (cors_json 200 json_success)
         end
       else if String.eqb path "/api/stats" && String.eqb method "GET"
       then
         match truthy (req_query_sessionId request) with
         | None => ret (cors_json 400 (json_error "sessionId is required" None))
         | Some sessionId =>
             response <-
               stub_fetch (id_of_name sessionId)
                 (agent_request "/stats" "GET" None) ;;
             data <- hawait (response_json response) ;;
             ret (cors_json 200 data)
         end
       else if String.eqb path "/api/health" && String.eqb method "GET"
       then ret (cors_json 200 (json_health (call_now call)))
       else ret (cors_json 404 (json_error "Not found" None)))
      (fun e =>
         ret (cors_json 500
                (json_error "Internal server error" (Some (error_message e))))).

End Worker.

(** The object a call to the Worker addresses, if any. *)
Definition addressed (call : WorkerCall) : option ObjectId :=
  let request := call_request call in
  let path := req_path request in
  let method := req_method request in
  if String.eqb method "OPTIONS" then None
  else if String.eqb path "/"
          || (negb (String.prefix "/api/" path)
              && negb (String.prefix "/agent/" path))
  then None
  else if String.eqb path "/api/welcome" && String.eqb method "GET"
  then None
  else if String.eqb path "/api/chat" && String.eqb method "POST"
  then match req_json request with
       | Returns parsed =>
           match truthy (body_message parsed) with
           | Some _ =>
               match truthy (body_sessionId parsed) with
               | Some sessionId => Some (id_of_name sessionId)
               | None => Some (id_unique (call_unique call))
               end
           | None => None
           end
       | Throws _ => None
       end
  else if String.eqb path "/api/history" && String.eqb method "GET"
  then option_map id_of_name (truthy (req_query_sessionId request))
  else if String.eqb path "/api/clear" && String.eqb method "POST"
  then match req_json request with
       | Returns parsed => option_map id_of_name (truthy (body_sessionId parsed))
       | Throws _ => None
       end
  else if String.eqb path "/api/stats" && String.eqb method "GET"
  then option_map id_of_name (truthy (req_query_sessionId request))
  else None.

(** The object with identity [id]: the one of the namespace, or a new one
    constructed at time [now]. *)
Definition object_at (id_string : ObjectId -> string) (now : Z)
  (ns : Namespace) (id : ObjectId) : DurableObject :=
  match ns id with
  | Some d => d
  | None => new_agent (id_string id) now
  end.

(** The four requests the Worker sends to an object. *)
Inductive forwarded : Request -> list Operation -> WorkerCall -> Prop :=
| forwarded_query : forall call message,
    nonempty message = true ->
    forwarded
      (agent_request "/query" "POST" (Some message))
      [handleQuery (call_collaborators call) (call_platform call) message]
      call
| forwarded_history : forall call,
    forwarded (agent_request "/history" "GET" None) [do_getHistory] call
| forwarded_clear : forall call,
    forwarded (agent_request "/clear" "POST" None)
      [do_clearHistory (call_platform call)] call
| forwarded_stats : forall call,
    forwarded (agent_request "/stats" "GET" None) [do_getStats] call.

(** The namespace after a sequence of calls to the Worker. *)
Definition worker_run (Number_toString : float -> string)
  (id_string : ObjectId -> string) (not_json : string)
  (calls : list WorkerCall) (ns : Namespace) : Namespace :=
  fold_left
    (fun ns call =>
       snd (worker_fetch Number_toString id_string not_json call ns))
    calls ns.

(** No connection flag of the state is set. *)
Definition disconnected (s : AgentState) : Prop :=
  mcpConnections s
  = {| conn_observability := false;
       conn_documentation := false;
       conn_bindings := false |}.

(** ** Inputs of the further concrete runs *)

Definition example_ops : list Operation :=
  [ handleQuery (example_wired example_ai empty_index) example_platform "hello";
    do_getStats;
    handleQuery (failing_search OtherThrown) example_platform "again";
    do_clearHistory example_platform ].

(** An object with six messages in its history. *)
Definition chatty_agent : DurableObject :=
  append_messages (firstn 6 twenty_five_messages) (new_agent "session" 0%Z).

Definition example_request (path method : string) (message : option string)
  : Request :=
  {| req_path := path;
     req_method := method;
     req_query_sessionId := None;
     req_json := Returns {| body_message := message;
                            body_sessionId := None |} |}.

Definition unreadable_request : Request :=
  {| req_path := "/query";
     req_method := "POST";
     req_query_sessionId := None;
     req_json := Throws (ErrorObject "Unexpected end of JSON input") |}.

Definition example_id_string (id : ObjectId) : string :=
  match id with
  | id_of_name name => "name:" +++ name
  | id_unique serial => "unique:" +++ decimal serial
  end.

Definition example_call (request : Request) : WorkerCall :=
  {| call_request := request;
     call_assets :=
       Returns {| status := 200; body := asset "index.html";
                  json_content_type := false; cors_headers := false |};
     call_unique := 1;
     call_collaborators := example_wired example_ai empty_index;
     call_platform := example_platform;
     call_constructed := 1700000000000%Z;
     call_agent_now := 1700000000400%Z;
     call_now := 1700000000500%Z |}.

(** A chat message of the session named alice. *)
Definition chat_call : WorkerCall :=
  example_call
    {| req_path := "/api/chat";
       req_method := "POST";
       req_query_sessionId := None;
       req_json := Returns {| body_message := Some "hello";
                              body_sessionId := Some "alice" |} |}.

(** The object of the session named alice after that message. *)
Definition alice_object : DurableObject :=
  object_at example_id_string 0%Z
    (worker_run example_nts example_id_string "not JSON" [chat_call]
       empty_namespace)
    (id_of_name "alice").

(** Case analysis on what a handler of the Worker reads and on what the
    object answers. *)
Ltac forward_to_object :=
  cbn [bind ret Handler_Monad]; unfold hbind, hawait, stub_fetch;
  repeat match goal with
         | |- context [match req_json ?r with _ => _ end] =>
             destruct (req_json r)
         | |- context [match truthy ?v with _ => _ end] =>
             destruct (truthy v) eqn:?
         | |- context [match fst ?f with _ => _ end] =>
             destruct (fst f)
         | |- context [match response_json ?n ?r with _ => _ end] =>
             destruct (response_json n r)
         end.

(** An embedding service that knows one text only, and an index that
    answers only for the embedding of that text and 3 neighbours. *)
Definition keyed_ai : Ai :=
  {| run_embedding := fun text =>
       if String.eqb text "kv setup"
       then Returns (Some {| emb_data := Some [[0.25%float; 0.5%float]] |})
       else Throws (ErrorObject "5007: No such input");
     run_hermes := run_hermes example_ai;
     run_llama := run_llama example_ai |}.

Definition keyed_index (s : float) : VectorizeIndex :=
  {| vectorize_query := fun embedding topK =>
       match embedding with
       | [x; y] =>
           if (x =? 0.25)%float && (y =? 0.5)%float && (topK =? 3)%N
           then Returns [example_entry s]
           else Returns []
       | _ => Returns []
       end;
     vectorize_insert := fun _ => Returns tt |}.

(** A query of 1000 times the letter a followed by [suffix]. *)
Definition long_query (suffix : string) : string :=
  string_of_list_ascii (repeat "a"%char 1000) +++ suffix.

(** An AI binding whose generation call fails. *)
Definition failing_llama_ai : Ai :=
  {| run_embedding := run_embedding example_ai;
     run_hermes := run_hermes example_ai;
     run_llama := fun _ _ _ =>
       Throws (ErrorObject "3040: Capacity temporarily exceeded") |}.

(** An AI binding whose generation call returns an empty text. *)
Definition wordless_llama_ai : Ai :=
  {| run_embedding := run_embedding example_ai;
     run_hermes := run_hermes example_ai;
     run_llama := fun _ _ _ =>
       Returns (Some {| response := Some EmptyString |}) |}.

(** An embedding service that knows only the text of 1000 times the
    letter a. *)
Definition thousand_ai : Ai :=
  {| run_embedding := fun text =>
       if String.eqb text (long_query EmptyString)
       then Returns (Some {| emb_data := Some [[0.25%float; 0.5%float]] |})
       else Throws (ErrorObject "5007: No such input");
     run_hermes := run_hermes example_ai;
     run_llama := run_llama example_ai |}.

(** ** Facts about the built-ins *)

Lemma slice_last_length {A} (n : nat) (l : list A) :
  length (slice_last n l) = Nat.min n (length l).
Proof.
  unfold slice_last. rewrite length_skipn. lia.
Qed.

Lemma slice_last_short {A} (n : nat) (l : list A) :
  length l <= n -> slice_last n l = l.
Proof.
  intros H. unfold slice_last.
  replace (length l - n) with 0 by lia. reflexivity.
Qed.

Lemma push_capped_slice (msg : ChatMessage) (h : list ChatMessage) :
  push_capped msg h = slice_last 20 (h ++ [msg]).
Proof.
  unfold push_capped. cbv zeta.
  destruct (Nat.ltb_spec 20 (length (h ++ [msg]))) as [Hlt | Hge].
  - reflexivity.
  - symmetry. apply slice_last_short. exact Hge.
Qed.

Lemma slice_last_snoc {A} (n : nat) (l : list A) (x : A) :
  1 <= n -> slice_last n (slice_last n l ++ [x]) = slice_last n (l ++ [x]).
Proof.
  intros Hn.
  destruct (Nat.le_gt_cases (length l) n) as [Hle | Hgt].
  - rewrite (slice_last_short n l Hle). reflexivity.
  - unfold slice_last at 1 3.
    rewrite !length_app, slice_last_length. cbn [length].
    replace (Nat.min n (length l) + 1 - n) with 1 by lia.
    replace (length l + 1 - n) with (1 + (length l - n)) by lia.
    rewrite <- skipn_skipn. f_equal.
    unfold slice_last.
    rewrite skipn_app.
    replace (length l - n - length l) with 0 by lia.
    reflexivity.
Qed.

(** The built-ins on sample values, as a JavaScript engine prints them. *)
Example toFixed1_samples :
  map (toFixed1 (fun _ => "1e+21"))
    [ (0.85 * 100)%float; (0.8549 * 100)%float; 1.25%float; (-0.05)%float;
      (-0)%float; nan; infinity; 1e21%float ]
  = [ "85.0"; "85.5"; "1.3"; "-0.1"; "0.0"; "NaN"; "Infinity"; "1e+21" ].
Proof. reflexivity. Qed.

Example simpleHash_samples :
  (simpleHash "a", simpleHash "hello world", toString36 2147483648)
  = ("2p", "to5x38", "zik0zk").
Proof. reflexivity. Qed.

Example inherited_lookup_samples :
  (mapToolToMCP "search_docs", mapToolToMCP "get_weather",
   mapToolToMCP "constructor")
  = (Some documentation, None,
     Some (target_foreign "function Object() { [native code] }")).
Proof. reflexivity. Qed.

Lemma push_capped_length (msg : ChatMessage) (h : list ChatMessage) :
  length (push_capped msg h) <= 20.
Proof.
  rewrite push_capped_slice, slice_last_length. lia.
Qed.

Lemma addToHistory_history (r : Role) (text : string) (now : Z)
  (d : DurableObject) :
  conversationHistory (state (snd (addToHistory r text now d)))
  = push_capped {| role := r; content := text; timestamp := now |}
      (conversationHistory (state d)).
Proof. reflexivity. Qed.

Lemma message_eta (m : ChatMessage) :
  {| role := role m; content := content m; timestamp := timestamp m |} = m.
Proof. destruct m; reflexivity. Qed.

Lemma push_all_slice (msgs : list ChatMessage) :
  forall h, msgs <> [] ->
    fold_left (fun h m => push_capped m h) msgs h = slice_last 20 (h ++ msgs).
Proof.
  induction msgs as [| x xs IH] using rev_ind; intros h Hne.
  - contradiction.
  - rewrite fold_left_app. cbn [fold_left].
    destruct xs as [| y ys].
    + cbn [fold_left app]. apply push_capped_slice.
    + rewrite IH by discriminate.
      rewrite push_capped_slice, slice_last_snoc by lia.
      rewrite <- app_assoc. reflexivity.
Qed.

Lemma append_messages_history (msgs : list ChatMessage) :
  forall d,
    conversationHistory (state (append_messages msgs d))
    = fold_left (fun h m => push_capped m h) msgs
        (conversationHistory (state d)).
Proof.
  induction msgs as [| m rest IH]; intros d.
  - reflexivity.
  - cbn [append_messages fold_left].
    fold (append_messages rest
            (snd (addToHistory (role m) (content m) (timestamp m) d))).
    rewrite IH, addToHistory_history, message_eta. reflexivity.
Qed.

(** ** The claims *)

(** C5: after every append the history has at most 20 messages; appending
    25 messages to any history leaves exactly the last 20 of them, in their
    order. *)
Theorem history_cap :
  (forall r text now d,
      length (conversationHistory (state (snd (addToHistory r text now d))))
      <= 20)
  /\ (forall msgs d,
         length msgs = 25 ->
         conversationHistory (state (append_messages msgs d)) = skipn 5 msgs
         /\ length (conversationHistory (state (append_messages msgs d))) = 20).
Proof.
  split.
  - intros r text now d. rewrite addToHistory_history.
    apply push_capped_length.
  - intros msgs d Hlen.
    assert (Hne : msgs <> []) by (intros ->; discriminate).
    rewrite append_messages_history, push_all_slice by exact Hne.
    assert (Hs : slice_last 20 (conversationHistory (state d) ++ msgs)
                 = skipn 5 msgs).
    { unfold slice_last. rewrite length_app, Hlen.
      rewrite skipn_app.
      replace (length (conversationHistory (state d)) + 25 - 20
               - length (conversationHistory (state d))) with 5 by lia.
      rewrite skipn_all2 by lia. reflexivity. }
    rewrite Hs. split; [reflexivity |].
    rewrite length_skipn. lia.
Qed.

Lemma history_cap_witness :
  conversationHistory
    (state (append_messages twenty_five_messages (new_agent "session" 0%Z)))
  = skipn 5 twenty_five_messages.
Proof.
  apply (proj2 history_cap twenty_five_messages (new_agent "session" 0%Z)).
  reflexivity.
Defined.

(** *** The semantic cache *)

Lemma search_by_match_list (ai : Ai) (vectorize : VectorizeIndex)
  (query : string) (threshold : float) :
  search ai vectorize query threshold
  = Returns
      match match_list ai vectorize query with
      | Some (top :: _) =>
          if (threshold <=? match_score top)%float
          then Some (result_of_match top)
          else None
      | _ => None
      end.
Proof.
  unfold search, match_list.
  destruct (generateEmbedding ai query) as [[embedding |] | e]; cbn;
    try reflexivity.
  destruct (vectorize_query vectorize embedding 3%N) as [[| top rest] | e];
    cbn; try reflexivity.
  destruct (threshold <=? match_score top)%float; reflexivity.
Qed.

(** C1: [search] never throws.  It returns an entry exactly when the
    embedding service, asked about the first 1000 characters of the query,
    answers with a data array, the index, asked for the 3 nearest
    neighbours of the first embedding of that array, answers with a
    non-empty match list, and the score of the first match is at least the
    threshold; the entry then carries that score and the question, answer,
    source tag and timestamp of that match's metadata (undefined where the
    metadata or the field is missing); in every other case it returns
    none.  The default threshold is 0.85: there a top score of exactly
    0.85 is returned and one of 0.8499 is not. *)
Theorem search_threshold (ai : Ai) (vectorize : VectorizeIndex)
  (query : string) :
  SIMILARITY_THRESHOLD = 0.85%float
  /\ (forall threshold,
         exists found,
           search ai vectorize query threshold = Returns found /\
           forall r,
             found = Some r <->
             exists embedding others top rest,
               run_embedding ai (String.substring 0 1000 query)
               = Returns (Some {| emb_data := Some (embedding :: others) |})
               /\ vectorize_query vectorize embedding 3%N
                  = Returns (top :: rest)
               /\ (threshold <=? match_score top)%float = true
               /\ r = {| score := match_score top;
                         question :=
                           match match_metadata top with
                           | Some md => md_question md
                           | None => None
                           end;
                         answer :=
                           match match_metadata top with
                           | Some md => md_answer md
                           | None => None
                           end;
                         mcpSource :=
                           match match_metadata top with
                           | Some md => md_mcpSource md
                           | None => None
                           end;
                         memory_timestamp :=
                           match match_metadata top with
                           | Some md => md_timestamp md
                           | None => None
                           end |})
  /\ (forall embedding others top rest md,
         run_embedding ai (String.substring 0 1000 query)
         = Returns (Some {| emb_data := Some (embedding :: others) |}) ->
         vectorize_query vectorize embedding 3%N = Returns (top :: rest) ->
         match_metadata top = Some md ->
         (match_score top = 0.85%float ->
          search ai vectorize query SIMILARITY_THRESHOLD
          = Returns (Some {| score := 0.85%float;
                             question := md_question md;
                             answer := md_answer md;
                             mcpSource := md_mcpSource md;
                             memory_timestamp := md_timestamp md |}))
         /\ (match_score top = 0.8499%float ->
             search ai vectorize query SIMILARITY_THRESHOLD = Returns None)).
Proof.
  split; [reflexivity |]. split.
  - intros threshold. unfold search, generateEmbedding, substring_to.
    destruct (run_embedding ai (String.substring 0 1000 query))
      as [[[[[| embedding others] |]] |] | e] eqn:Hrun;
      cbn [otry bind ret outcome_Monad obind];
      try (eexists; split; [reflexivity |]; intros r;
           split; [discriminate |];
           intros (e1 & o1 & t1 & r1 & Habs & _); discriminate).
    destruct (vectorize_query vectorize embedding 3%N)
      as [[| top rest] | e] eqn:Hq;
      cbn [otry bind ret outcome_Monad obind];
      try (eexists; split; [reflexivity |]; intros r;
           split; [discriminate |];
           intros (e1 & o1 & t1 & r1 & [= <- <-] & Habs & _);
           rewrite Hq in Habs; discriminate).
    destruct (threshold <=? match_score top)%float eqn:Hle;
      cbn [otry bind ret outcome_Monad obind];
      eexists; (split; [reflexivity |]); intros r; split.
    + intros [= <-]. exists embedding, others, top, rest.
      repeat split; (reflexivity || assumption).
    + intros (e1 & o1 & t1 & r1 & [= <- <-] & Hq' & _ & ->).
      rewrite Hq in Hq'. injection Hq' as <- <-. reflexivity.
    + discriminate.
    + intros (e1 & o1 & t1 & r1 & [= <- <-] & Hq' & Hle' & _).
      rewrite Hq in Hq'. injection Hq' as <- <-. congruence.
  - intros embedding others top rest md Hrun Hq Hmd.
    unfold search, generateEmbedding, substring_to. rewrite Hrun.
    cbn [otry bind ret outcome_Monad obind]. rewrite Hq.
    cbn [otry bind ret outcome_Monad obind].
    split; intros Hscore; rewrite Hscore.
    + cbn. unfold result_of_match, metadata_field. rewrite Hscore, Hmd.
      reflexivity.
    + reflexivity.
Qed.

(** *** The router *)

Lemma route_error_shape (now : Z) (target : MCPTarget) (e : thrown) :
  source (route_error now target e) = target
  /\ data (route_error now target e)
     = data_error
         {| error := true;
            message := error_message e;
            suggestion := "Please try rephrasing your query or check your Cloudflare account permissions." |}.
Proof. split; reflexivity. Qed.

(** C7: when the intent names a target and the provider called for it
    throws, [route] returns a result whose source is that target and whose
    data is the error payload (error = true, the message, a suggestion); a
    target outside the three declared ones gets the same kind of result. *)
Theorem route_catches_failures (now : Z) (providers : Providers)
  (intent : Intent) (query : string) (target : MCPTarget) :
  targetMCP intent = Some target ->
  (forall e,
      provider_call providers target query (parameters intent)
      = Some (Throws e) ->
      exists result,
        route now providers intent query = Returns result /\
        source result = target /\
        data result
        = data_error
            {| error := true;
               message := error_message e;
               suggestion := "Please try rephrasing your query or check your Cloudflare account permissions." |})
  /\ (forall rendering,
         target = target_foreign rendering ->
         exists result,
           route now providers intent query = Returns result /\
           source result = target /\
           data result
           = data_error
               {| error := true;
                  message := "Unknown MCP target: " +++ rendering;
                  suggestion := "Please try rephrasing your query or check your Cloudflare account permissions." |}).
Proof.
  intros Htarget. split.
  - intros e Hcall. exists (route_error now target e).
    split; [| apply route_error_shape].
    unfold route. rewrite Htarget.
    destruct target; cbn in Hcall; try discriminate;
      injection Hcall as Hcall; rewrite Hcall; reflexivity.
  - intros rendering ->.
    exists (route_error now (target_foreign rendering)
              (ErrorObject ("Unknown MCP target: " +++ rendering))).
    split; [| apply route_error_shape].
    unfold route. rewrite Htarget. reflexivity.
Qed.

(** *** The classifier *)



(** *** The session manager *)

(** C10: [clearHistory] empties the history and changes no other field of
    the state. *)
Theorem clearHistory_frame (p : Platform) (d : DurableObject) :
  fst (clearHistory p d) = Returns tt
  /\ conversationHistory (state (snd (clearHistory p d))) = []
  /\ sessionId (state (snd (clearHistory p d))) = sessionId (state d)
  /\ mcpConnections (state (snd (clearHistory p d))) = mcpConnections (state d)
  /\ lastActivity (state (snd (clearHistory p d))) = lastActivity (state d)
  /\ metadata (state (snd (clearHistory p d))) = metadata (state d).
Proof.
  unfold clearHistory, saveState, update. cbn. unfold mbind.
  destruct (storage_put p (state _)); cbn; repeat split; reflexivity.
Qed.

Lemma query_enters (nts : float -> string) (c : Collaborators) (p : Platform)
  (userMessage : string) (d : DurableObject) :
  query nts c p userMessage d
  = mtry (query_body nts c p userMessage)
      (fun e => ret (createErrorResponse e)) (entered p d).
Proof. reflexivity. Qed.

(** What the [try] block can do to the object. *)
Lemma query_body_effect (nts : float -> string) (c : Collaborators)
  (p : Platform) (userMessage : string) (d : DurableObject) :
  let d' := snd (query_body nts c p userMessage d) in
  sessionId (state d') = sessionId (state d)
  /\ totalQueries (metadata (state d')) = totalQueries (metadata (state d))
  /\ (cacheHits (metadata (state d')) = cacheHits (metadata (state d))
      \/ (exists r,
             semanticMemory_search c userMessage SIMILARITY_THRESHOLD
             = Returns (Some r))
         /\ cacheHits (metadata (state d'))
            = (cacheHits (metadata (state d)) + 1)%N)
  /\ (conversationHistory (state d') = conversationHistory (state d)
      \/ exists u a,
           role u = user /\ role a = assistant /\
           conversationHistory (state d')
           = push_capped a (push_capped u (conversationHistory (state d))))
  /\ (storage d' = storage d \/ storage d' = Some (state d')).
Proof.
  unfold_methods. split_calls; cbn; repeat split; auto.
  all: right.
  all: first [ split; [eexists; reflexivity | reflexivity]
             | do 2 eexists; split; [| split]; [| | reflexivity];
               reflexivity ].
Qed.

Lemma saveState_effect (p : Platform) (d : DurableObject) :
  fst (saveState p d) = Returns tt
  /\ state (snd (saveState p d)) = state d
  /\ (storage (snd (saveState p d)) = storage d
      \/ storage (snd (saveState p d)) = Some (state d)).
Proof.
  unfold saveState. destruct (storage_put p (state d)); cbn; auto.
Qed.

Lemma query_returns (nts : float -> string) (c : Collaborators)
  (p : Platform) (userMessage : string) (d : DurableObject) :
  exists text, fst (query nts c p userMessage d) = Returns text.
Proof.
  rewrite query_enters. unfold mtry.
  destruct (query_body nts c p userMessage (entered p d)) as [[text | e] d'];
    cbn; eauto.
Qed.

Lemma query_effect (nts : float -> string) (c : Collaborators)
  (p : Platform) (userMessage : string) (d : DurableObject) :
  let d' := snd (query nts c p userMessage d) in
  sessionId (state d') = sessionId (state d)
  /\ totalQueries (metadata (state d'))
     = (totalQueries (metadata (state d)) + 1)%N
  /\ (cacheHits (metadata (state d')) = cacheHits (metadata (state d))
      \/ cacheHits (metadata (state d'))
         = (cacheHits (metadata (state d)) + 1)%N)
  /\ (conversationHistory (state d') = conversationHistory (state d)
      \/ exists u a,
           role u = user /\ role a = assistant /\
           conversationHistory (state d')
           = push_capped a (push_capped u (conversationHistory (state d))))
  /\ (storage d' = storage d \/ storage d' = Some (state d')).
Proof.
  cbv zeta. rewrite query_enters.
  pose proof (query_body_effect nts c p userMessage (entered p d)) as H.
  cbv zeta in H. unfold mtry.
  destruct (query_body nts c p userMessage (entered p d)) as [[text | e] d'];
    cbn [fst snd ret Method_Monad] in *;
    destruct H as (Hid & Htotal & Hhits & Hhistory & Hstorage);
    (split; [exact Hid |]); (split; [exact Htotal |]);
    (split; [destruct Hhits as [Hh | [_ Hh]]; auto |]);
    split; assumption.
Qed.

(** *** Histories made of turns *)

Lemma paired_app (h1 h2 : list ChatMessage) :
  paired h1 -> paired h2 -> paired (h1 ++ h2).
Proof.
  induction 1 as [| u a rest Hu Ha _ IH]; intros H2.
  - exact H2.
  - cbn. apply paired_turn; auto.
Qed.

Lemma paired_length (h : list ChatMessage) :
  paired h -> exists k, length h = 2 * k.
Proof.
  induction 1 as [| u a rest _ _ _ [k Hk]].
  - exists 0. reflexivity.
  - exists (S k). cbn [length]. lia.
Qed.

Lemma paired_skipn (h : list ChatMessage) :
  paired h -> forall k, paired (skipn (2 * k) h).
Proof.
  induction 1 as [| u a rest Hu Ha Hrest IH]; intros k.
  - rewrite skipn_nil. constructor.
  - destruct k as [| k'].
    + cbn. constructor; assumption.
    + replace (2 * S k') with (S (S (2 * k'))) by lia.
      cbn [skipn]. apply IH.
Qed.

Lemma paired_push_turn (u a : ChatMessage) (h : list ChatMessage) :
  role u = user -> role a = assistant -> paired h ->
  paired (push_capped a (push_capped u h)).
Proof.
  intros Hu Ha Hh.
  rewrite (push_capped_slice a), (push_capped_slice u).
  rewrite slice_last_snoc by lia. rewrite <- app_assoc. cbn [app].
  assert (Hp : paired (h ++ [u; a])).
  { apply paired_app; [exact Hh |]. repeat constructor; assumption. }
  destruct (paired_length _ Hp) as [k Hk].
  unfold slice_last. rewrite Hk.
  replace (2 * k - 20) with (2 * (k - 10)) by lia.
  apply paired_skipn. exact Hp.
Qed.

Lemma paired_alternating (h : list ChatMessage) :
  paired h -> alternating h.
Proof.
  induction 1 as [| u a rest Hu Ha _ IH]; intros i m Hi.
  - destruct i; discriminate.
  - destruct i as [| [| i']]; cbn in Hi.
    + injection Hi as <-. exact Hu.
    + injection Hi as <-. exact Ha.
    + cbn [Nat.even]. apply IH. exact Hi.
Qed.

Lemma paired_followed (h : list ChatMessage) :
  paired h ->
  forall i m, Nat.even i = true -> nth_error h i = Some m ->
    exists m', nth_error h (S i) = Some m' /\ role m' = assistant.
Proof.
  induction 1 as [| u a rest Hu Ha _ IH]; intros i m Heven Hi.
  - destruct i; discriminate.
  - destruct i as [| [| i']].
    + exists a. split; [reflexivity | exact Ha].
    + discriminate.
    + cbn in Hi. cbn [Nat.even] in Heven.
      destruct (IH i' m Heven Hi) as (m' & Hm' & Hr).
      exists m'. split; [exact Hm' | exact Hr].
Qed.

(** *** The invariant of a session *)

Lemma object_ok_storage (d d' : DurableObject) :
  object_ok d -> state_ok (state d') ->
  storage d' = storage d \/ storage d' = Some (state d') ->
  object_ok d'.
Proof.
  intros [_ Hstored] Hstate Hstorage. split; [exact Hstate |].
  intros stored Heq. destruct Hstorage as [Hs | Hs]; rewrite Hs in Heq.
  - apply Hstored. exact Heq.
  - injection Heq as <-. exact Hstate.
Qed.

Lemma initial_state_ok (id : string) (now : Z) : state_ok (initial_state id now).
Proof.
  repeat split; cbn; [lia | constructor | lia].
Qed.

Lemma new_agent_ok (id : string) (now : Z) : object_ok (new_agent id now).
Proof.
  split; [apply initial_state_ok | discriminate].
Qed.

Lemma query_ok (nts : float -> string) (c : Collaborators) (p : Platform)
  (userMessage : string) (d : DurableObject) :
  object_ok d -> object_ok (snd (query nts c p userMessage d)).
Proof.
  intros Hok.
  pose proof (query_effect nts c p userMessage d) as H. cbv zeta in H.
  destruct H as (_ & Htotal & Hhits & Hhistory & Hstorage).
  apply (object_ok_storage d); [exact Hok | | exact Hstorage].
  destruct Hok as [(Hle & Hpaired & Hlen) _].
  split; [| split].
  - rewrite Htotal. destruct Hhits as [-> | ->]; lia.
  - destruct Hhistory as [-> | (u & a & Hu & Ha & ->)];
      [exact Hpaired | apply paired_push_turn; assumption].
  - destruct Hhistory as [-> | (u & a & _ & _ & ->)];
      [exact Hlen | apply push_capped_length].
Qed.

Lemma clearHistory_ok (p : Platform) (d : DurableObject) :
  object_ok d -> object_ok (snd (clearHistory p d)).
Proof.
  intros Hok. unfold_methods. cbn.
  destruct Hok as [(Hle & _ & _) Hstored].
  match goal with
  | |- context [storage_put p ?s] => destruct (storage_put p s)
  end; cbn.
  - split; [| intros stored [= <-]];
      (split; [exact Hle | split; [constructor | cbn; lia]]).
  - split; [| exact Hstored].
    split; [exact Hle | split; [constructor | cbn; lia]].
Qed.

Lemma connectMCPs_ok (p : Platform) (d : DurableObject) :
  object_ok d -> object_ok (snd (connectMCPs p d)).
Proof.
  intros Hok. unfold_methods. cbn.
  destruct Hok as [Hstate Hstored].
  match goal with
  | |- context [storage_put p ?s] => destruct (storage_put p s)
  end; cbn.
  - split; [| intros stored [= <-]]; exact Hstate.
  - split; [exact Hstate | exact Hstored].
Qed.

Lemma reconstruct_ok (now : Z) (get_fails : bool) (d : DurableObject) :
  object_ok d -> object_ok (reconstruct now get_fails d).
Proof.
  intros [Hstate Hstored]. split; [| exact Hstored].
  unfold reconstruct. cbn.
  destruct get_fails; [apply initial_state_ok |].
  destruct (storage d) as [stored |] eqn:Hs;
    [apply Hstored; reflexivity | apply initial_state_ok].
Qed.

Lemma perform_ok (nts : float -> string) (o : Operation) (d : DurableObject) :
  object_ok d -> object_ok (perform nts o d).
Proof.
  intros Hok. destruct o; cbn [perform].
  - apply query_ok. exact Hok.
  - apply clearHistory_ok. exact Hok.
  - apply connectMCPs_ok. exact Hok.
  - exact Hok.
  - exact Hok.
  - apply reconstruct_ok. exact Hok.
Qed.

Lemma run_ok (nts : float -> string) (ops : list Operation) :
  forall d, object_ok d -> object_ok (run nts ops d).
Proof.
  induction ops as [| o rest IH]; intros d Hok.
  - exact Hok.
  - cbn [run fold_left]. apply IH. apply perform_ok. exact Hok.
Qed.

(** C8: after any sequence of operations on a new agent the cache-hit
    counter is at most the total-query counter. *)
Theorem cacheHits_at_most_totalQueries (nts : float -> string)
  (id : string) (now : Z) (ops : list Operation) :
  (cacheHits (metadata (state (run nts ops (new_agent id now))))
   <= totalQueries (metadata (state (run nts ops (new_agent id now)))))%N.
Proof.
  destruct (run_ok nts ops (new_agent id now) (new_agent_ok id now))
    as [(Hle & _) _].
  exact Hle.
Qed.

(** C9: after any sequence of operations on a new agent the history has
    even length and is made of turns: a user message at every even position
    (counting from 0), each immediately followed by an assistant message. *)
Theorem history_alternates (nts : float -> string)
  (id : string) (now : Z) (ops : list Operation) :
  let h := conversationHistory (state (run nts ops (new_agent id now))) in
  Nat.even (length h) = true
  /\ paired h
  /\ alternating h
  /\ (forall i m,
         Nat.even i = true -> nth_error h i = Some m ->
         role m = user
         /\ exists m', nth_error h (S i) = Some m' /\ role m' = assistant).
Proof.
  cbv zeta.
  destruct (run_ok nts ops (new_agent id now) (new_agent_ok id now))
    as [(_ & Hpaired & _) _].
  split; [| split; [exact Hpaired | split]].
  - destruct (paired_length _ Hpaired) as [k ->].
    rewrite Nat.even_mul. reflexivity.
  - apply paired_alternating. exact Hpaired.
  - intros i m Heven Hi. split.
    + rewrite (paired_alternating _ Hpaired i m Hi), Heven. reflexivity.
    + exact (paired_followed _ Hpaired i m Heven Hi).
Qed.

(** *** Cache hits *)

Lemma toFixed1_one_decimal (nts : float -> string) (x : float) :
  below_1e21 x = true -> one_decimal_place (toFixed1 nts x).
Proof.
  unfold below_1e21, toFixed1, one_decimal_place.
  destruct (Prim2SF x) as [s | s | | s m e]; try discriminate.
  - intros _. exists EmptyString, 0%N, 0%N.
    split; [left; reflexivity | split; [reflexivity | reflexivity]].
  - destruct (exact_fraction m e) as [num den].
    destruct (10 ^ 21 * den <=? num)%Z; [discriminate |]. intros _.
    set (n := Z.to_N ((20 * num + den) / (2 * den))).
    exists (if s then "-" else EmptyString), (n / 10)%N, (n mod 10)%N.
    split; [destruct s; auto |].
    split; [apply N.mod_lt; discriminate | reflexivity].
Qed.

(** C3: on a cache hit [query] adds one to the cache-hit counter and to the
    total-query counter, leaves the three call counters and the history as
    they were, and returns the cached answer with the source tag and the
    score times 100 printed by [toFixed(1)], which is a number with one
    decimal place for every finite product below 1e21. *)
Theorem cache_hit_short_circuit (nts : float -> string) (c : Collaborators)
  (p : Platform) (userMessage : string) (d : DurableObject)
  (hit : MemorySearchResult) :
  semanticMemory_search c userMessage SIMILARITY_THRESHOLD
  = Returns (Some hit) ->
  let d' := snd (query nts c p userMessage d) in
  fst (query nts c p userMessage d)
  = Returns
      ("[Cached Answer - " +++ render (mcpSource hit) +++ "]"
         +++ nl +++ nl +++ render (answer hit) +++ nl +++ nl
         +++ "_This answer was retrieved from memory (similarity: "
         +++ toFixed1 nts (score hit * 100)%float +++ "%)_")
  /\ cacheHits (metadata (state d'))
     = (cacheHits (metadata (state d)) + 1)%N
  /\ totalQueries (metadata (state d'))
     = (totalQueries (metadata (state d)) + 1)%N
  /\ mcpCalls (metadata (state d')) = mcpCalls (metadata (state d))
  /\ conversationHistory (state d') = conversationHistory (state d)
  /\ (below_1e21 (score hit * 100)%float = true ->
      one_decimal_place (toFixed1 nts (score hit * 100)%float)).
Proof.
  intros Hhit. cbv zeta. unfold_methods. rewrite Hhit. cbn.
  match goal with
  | |- context [storage_put p ?s] => destruct (storage_put p s)
  end; cbn; repeat split; try reflexivity; apply toFixed1_one_decimal.
Qed.

(** *** Failures *)


(** *** Classifier failure *)

Lemma generateResponse_returns (ai : Ai) (query : string) :
  exists text, generateResponse ai query = Returns text.
Proof.
  unfold generateResponse.
  destruct (run_llama ai _ _ _) as [[[[text |]] |] | e];
    cbn [otry bind ret outcome_Monad obind];
    try destruct (nonempty text); eexists; reflexivity.
Qed.

Lemma store_returns (ai : Ai) (vectorize : VectorizeIndex)
  (normalize : string -> string) (now_id now_stored : Z)
  (question answer mcpSource : string) :
  store ai vectorize normalize now_id now_stored question answer mcpSource
  = Returns tt.
Proof.
  unfold store.
  destruct (generateEmbedding ai question) as [[embedding |] | e]; cbn;
    try reflexivity.
  destruct (vectorize_insert vectorize _) as [[] | e]; reflexivity.
Qed.

(** C6: when the call to the classification oracle throws, [classifyIntent]
    returns type general, confidence 0.3, no target and no parameters; and
    [query], having missed the cache, answers with what [generateResponse]
    returns, counts no capability call and records the turn; in no case
    does it throw. *)
Theorem classifier_failure_falls_back (ai : Ai) (vectorize : VectorizeIndex)
  (normalize : string -> string) (JSON_stringify : MCPData -> string)
  (now_id now_stored now_route : Z) (now_iso : string)
  (nts : float -> string) (p : Platform) (userMessage : string)
  (d : DurableObject) (e : thrown) :
  run_hermes ai
    [ {| msg_role := system; msg_content := classifier_instruction |};
      {| msg_role := user; msg_content := userMessage |} ]
  = Throws e ->
  let c := wired ai vectorize normalize JSON_stringify
             now_id now_stored now_route now_iso in
  let d' := snd (query nts c p userMessage d) in
  classifyIntent ai userMessage
  = Returns {| intent_type := general;
               confidence := 0.3%float;
               targetMCP := None;
               parameters := [] |}
  /\ (exists text, fst (query nts c p userMessage d) = Returns text)
  /\ (search ai vectorize userMessage SIMILARITY_THRESHOLD = Returns None ->
      exists text,
        generateResponse ai userMessage = Returns text
        /\ fst (query nts c p userMessage d) = Returns text
        /\ mcpCalls (metadata (state d')) = mcpCalls (metadata (state d))
        /\ conversationHistory (state d')
           = push_capped
               {| role := assistant; content := text;
                  timestamp := now_assistant p |}
               (push_capped
                  {| role := user; content := userMessage;
                     timestamp := now_user p |}
                  (conversationHistory (state d)))).
Proof.
  intros Hthrow. cbv zeta.
  assert (Hclass : classifyIntent ai userMessage
                   = Returns {| intent_type := general;
                                confidence := 0.3%float;
                                targetMCP := None;
                                parameters := [] |}).
  { unfold classifyIntent. rewrite Hthrow. reflexivity. }
  split; [exact Hclass |]. split; [apply query_returns |].
  intros Hmiss.
  destruct (generateResponse_returns ai userMessage) as [text Htext].
  exists text. split; [exact Htext |].
  unfold_methods. cbn [wired semanticMemory_search semanticMemory_store
    llmOrchestrator_classifyIntent llmOrchestrator_generateResponse].
  rewrite Hmiss, Hclass. cbn [targetMCP]. rewrite Htext, store_returns.
  match goal with
  | |- context [storage_put p ?s] => destruct (storage_put p s)
  end; cbn; repeat split; reflexivity.
Qed.

(** ** Concrete runs *)

Lemma search_threshold_witness :
  search keyed_ai (keyed_index 0.85%float) "kv setup" SIMILARITY_THRESHOLD
  = Returns (Some {| score := 0.85%float;
                     question := Some "How do I set up a KV namespace?";
                     answer := Some "Create it with wrangler.";
                     mcpSource := Some "documentation";
                     memory_timestamp := Some 1700000000000%Z |})
  /\ search keyed_ai (keyed_index 0.8499%float) "kv setup"
       SIMILARITY_THRESHOLD
     = Returns None.
Proof.
  split.
  - apply (proj1 (proj2 (proj2 (search_threshold keyed_ai
                                  (keyed_index 0.85%float) "kv setup"))
                    [0.25%float; 0.5%float] [] (example_entry 0.85%float) []
                    {| md_question := Some "How do I set up a KV namespace?";
                       md_answer := Some "Create it with wrangler.";
                       md_mcpSource := Some "documentation";
                       md_timestamp := Some 1700000000000%Z |}
                    eq_refl eq_refl eq_refl)).
    reflexivity.
  - apply (proj2 (proj2 (proj2 (search_threshold keyed_ai
                                  (keyed_index 0.8499%float) "kv setup"))
                    [0.25%float; 0.5%float] [] (example_entry 0.8499%float) []
                    {| md_question := Some "How do I set up a KV namespace?";
                       md_answer := Some "Create it with wrangler.";
                       md_mcpSource := Some "documentation";
                       md_timestamp := Some 1700000000000%Z |}
                    eq_refl eq_refl eq_refl)).
    reflexivity.
Defined.

Lemma route_catches_failures_witness :
  exists result,
    route 0%Z failing_providers logs_intent "show errors" = Returns result
    /\ source result = observability
    /\ data result
       = data_error
           {| error := true;
              message := "503 Service Unavailable";
              suggestion := "Please try rephrasing your query or check your Cloudflare account permissions." |}.
Proof.
  apply (proj1 (route_catches_failures 0%Z failing_providers logs_intent
                  "show errors" observability eq_refl)
           (ErrorObject "503 Service Unavailable")).
  reflexivity.
Defined.



Lemma cache_hit_short_circuit_witness :
  fst (query example_nts
         (example_wired example_ai (index_scoring 0.8549%float))
         example_platform "kv setup" (new_agent "session" 0%Z))
  = Returns
      ("[Cached Answer - documentation]" +++ nl +++ nl
         +++ "Create it with wrangler." +++ nl +++ nl
         +++ "_This answer was retrieved from memory (similarity: 85.5%)_").
Proof.
  apply (proj1 (cache_hit_short_circuit example_nts
                  (example_wired example_ai (index_scoring 0.8549%float))
                  example_platform "kv setup" (new_agent "session" 0%Z)
                  (result_of_match (example_entry 0.8549%float))
                  eq_refl)).
Defined.



Lemma classifier_failure_falls_back_witness :
  classifyIntent example_ai "hello"
  = Returns {| intent_type := general;
               confidence := 0.3%float;
               targetMCP := None;
               parameters := [] |}
  /\ fst (query example_nts (example_wired example_ai empty_index)
            example_platform "hello" (new_agent "session" 0%Z))
     = Returns "Workers run on the edge.".
Proof.
  pose proof (classifier_failure_falls_back example_ai empty_index
                example_normalize example_stringify
                1700000000150%Z 1700000000160%Z 1700000000120%Z
                "2023-11-14T22:13:20.120Z" example_nts example_platform
                "hello" (new_agent "session" 0%Z)
                (ErrorObject "3046: Request timeout") eq_refl) as H.
  cbv zeta in H. destruct H as (Hclass & _ & Hquery).
  split; [exact Hclass |].
  destruct (Hquery eq_refl) as (text & Htext & Hanswer & _).
  unfold example_wired. rewrite Hanswer. rewrite <- Htext. reflexivity.
Defined.

Lemma history_alternates_witness :
  let h := conversationHistory
             (state (run example_nts
                       [ handleQuery (example_wired example_ai empty_index)
                           example_platform "hello" ]
                       (new_agent "session" 0%Z))) in
  exists m m',
    nth_error h 0 = Some m /\ role m = user
    /\ nth_error h 1 = Some m' /\ role m' = assistant.
Proof.
  cbv zeta.
  pose proof (history_alternates example_nts "session" 0%Z
                [ handleQuery (example_wired example_ai empty_index)
                    example_platform "hello" ]) as H.
  cbv zeta in H. destruct H as (_ & _ & _ & H).
  eexists.
  destruct (H 0 _ eq_refl eq_refl) as (Hu & m' & Hm' & Ha).
  exists m'. split; [reflexivity |]. split; [exact Hu |].
  split; [exact Hm' | exact Ha].
Defined.

(** ** Further properties of the session manager *)

(** X1: whatever the collaborators do, [query] returns, counts the query,
    stamps the activity time and leaves the session identifier and the
    connection flags as they were. *)
Theorem query_frame (nts : float -> string) (c : Collaborators)
  (p : Platform) (userMessage : string) (d : DurableObject) :
  (exists text, fst (query nts c p userMessage d) = Returns text)
  /\ sessionId (state (snd (query nts c p userMessage d)))
     = sessionId (state d)
  /\ mcpConnections (state (snd (query nts c p userMessage d)))
     = mcpConnections (state d)
  /\ lastActivity (state (snd (query nts c p userMessage d)))
     = now_activity p
  /\ totalQueries (metadata (state (snd (query nts c p userMessage d))))
     = (totalQueries (metadata (state d)) + 1)%N.
Proof.
  unfold_methods. split_calls; cbn; repeat split; eauto.
Qed.

Lemma query_accounting (nts : float -> string) (c : Collaborators)
  (p : Platform) (userMessage : string) (d : DurableObject) :
  (accounted (state (snd (query nts c p userMessage d)))
   <= accounted (state d) + 1)%N.
Proof.
  unfold accounted. unfold_methods. split_calls; cbn; try lia.
  all: match goal with
       | |- context [increment_call ?t _] => destruct t; cbn; lia
       end.
Qed.

Lemma query_storage (nts : float -> string) (c : Collaborators)
  (p : Platform) (userMessage : string) (d : DurableObject) :
  storage (snd (query nts c p userMessage d)) = storage d
  \/ storage (snd (query nts c p userMessage d))
     = Some (state (snd (query nts c p userMessage d))).
Proof.
  pose proof (query_effect nts c p userMessage d) as H. cbv zeta in H.
  destruct H as (_ & _ & _ & _ & H). exact H.
Qed.

Lemma both_storage (P : AgentState -> Prop) (d d' : DurableObject) :
  both P d -> P (state d') ->
  storage d' = storage d \/ storage d' = Some (state d') ->
  both P d'.
Proof.
  intros [_ Hstored] Hstate Hstorage. split; [exact Hstate |].
  intros stored Heq. destruct Hstorage as [Hs | Hs]; rewrite Hs in Heq.
  - apply Hstored. exact Heq.
  - injection Heq as <-. exact Hstate.
Qed.

Lemma saving_storage (p : Platform) (f : AgentState -> AgentState)
  (d : DurableObject) :
  state (snd (saveState p (snd (update f d)))) = f (state d)
  /\ (storage (snd (saveState p (snd (update f d)))) = storage d
      \/ storage (snd (saveState p (snd (update f d)))) = Some (f (state d))).
Proof.
  unfold saveState, update. cbn.
  destruct (storage_put p (f (state d))); cbn; auto.
Qed.

Lemma clearHistory_saves (p : Platform) (d : DurableObject) :
  snd (clearHistory p d)
  = snd (saveState p (snd (update (set_conversationHistory []) d))).
Proof.
  unfold_methods. cbn.
  match goal with
  | |- context [storage_put p ?s] => destruct (storage_put p s)
  end; reflexivity.
Qed.

Lemma connectMCPs_saves (p : Platform) (d : DurableObject) :
  snd (connectMCPs p d)
  = snd (saveState p
           (snd (update
                   (set_mcpConnections
                      {| conn_observability := true;
                         conn_documentation := true;
                         conn_bindings := true |}) d))).
Proof.
  unfold_methods. cbn.
  match goal with
  | |- context [storage_put p ?s] => destruct (storage_put p s)
  end; reflexivity.
Qed.

(** A property of states that holds initially and that every operation
    keeps, holds throughout every run, in memory and in storage. *)
Lemma run_invariant (P : AgentState -> Prop) (nts : float -> string) :
  (forall s now, P s -> P (initial_state (sessionId s) now)) ->
  (forall c p userMessage d,
      P (state d) -> P (state (snd (query nts c p userMessage d)))) ->
  (forall s, P s -> P (set_conversationHistory [] s)) ->
  (forall s flags, P s -> P (set_mcpConnections flags s)) ->
  forall ops d, both P d -> both P (run nts ops d).
Proof.
  intros Hinit Hquery Hclear Hconnect.
  induction ops as [| o rest IH]; intros d Hd; [exact Hd |].
  cbn [run fold_left]. apply IH. destruct o; cbn [perform].
  - apply (both_storage P d); [exact Hd | | apply query_storage].
    apply Hquery. exact (proj1 Hd).
  - destruct (saving_storage p (set_conversationHistory []) d) as [Hs Hst].
    rewrite clearHistory_saves.
    apply (both_storage P d); [exact Hd | |]; rewrite Hs.
    + apply Hclear. exact (proj1 Hd).
    + exact Hst.
  - rewrite connectMCPs_saves.
    match goal with
    | |- context [update ?f d] =>
        destruct (saving_storage p f d) as [Hs Hst]
    end.
    apply (both_storage P d); [exact Hd | |]; rewrite Hs.
    + apply Hconnect. exact (proj1 Hd).
    + exact Hst.
  - exact Hd.
  - exact Hd.
  - destruct Hd as [Hstate Hstored]. split; [| exact Hstored].
    unfold reconstruct. cbn.
    destruct get_fails; [apply Hinit; exact Hstate |].
    destruct (storage d) as [stored |] eqn:Hs;
      [apply Hstored; reflexivity | apply Hinit; exact Hstate].
Qed.

(** X2: after any sequence of operations on a new agent, the cache hits
    and the calls of the three capabilities together never exceed the
    number of queries: a query is a hit or calls at most one capability. *)
Theorem hits_and_calls_at_most_queries (nts : float -> string)
  (id : string) (now : Z) (ops : list Operation) :
  (accounted (state (run nts ops (new_agent id now)))
   <= totalQueries (metadata (state (run nts ops (new_agent id now)))))%N.
Proof.
  refine (proj1 (run_invariant
                   (fun s => (accounted s <= totalQueries (metadata s))%N)
                   nts _ _ _ _ ops (new_agent id now) _)).
  - intros s t _. cbn. lia.
  - intros c p userMessage d Hd.
    pose proof (query_accounting nts c p userMessage d) as Hacc.
    pose proof (query_effect nts c p userMessage d) as Heff. cbv zeta in Heff.
    destruct Heff as (_ & Htotal & _). rewrite Htotal. lia.
  - intros s Hs. exact Hs.
  - intros s flags Hs. exact Hs.
  - split; [cbn; lia | discriminate].
Qed.

(** X3: after any sequence of operations on a new agent the history holds
    at most 20 messages. *)
Theorem session_history_at_most_20 (nts : float -> string)
  (id : string) (now : Z) (ops : list Operation) :
  length (conversationHistory (state (run nts ops (new_agent id now)))) <= 20.
Proof.
  destruct (run_ok nts ops (new_agent id now) (new_agent_ok id now))
    as [(_ & _ & Hlen) _].
  exact Hlen.
Qed.

Lemma perform_totalQueries (nts : float -> string) (o : Operation)
  (d : DurableObject) :
  without_reconstruction [o] = true ->
  totalQueries (metadata (state (perform nts o d)))
  = (totalQueries (metadata (state d)) + count_queries [o])%N.
Proof.
  intros Hno. destruct o; cbn [perform count_queries]; try discriminate.
  - pose proof (query_effect nts c p userMessage d) as Heff. cbv zeta in Heff.
    destruct Heff as (_ & Htotal & _). rewrite Htotal. lia.
  - rewrite clearHistory_saves.
    rewrite (proj1 (saving_storage p _ d)). cbn. lia.
  - rewrite connectMCPs_saves.
    rewrite (proj1 (saving_storage p _ d)). cbn. lia.
  - cbn. lia.
  - cbn. lia.
Qed.

(** X4: as long as the object is not constructed again, the total-query
    counter of a new agent is the number of queries it has been asked,
    whether they hit the cache, were answered or failed. *)
Theorem totalQueries_counts_queries (nts : float -> string)
  (id : string) (now : Z) (ops : list Operation) :
  without_reconstruction ops = true ->
  totalQueries (metadata (state (run nts ops (new_agent id now))))
  = count_queries ops.
Proof.
  intros Hno.
  assert (H : forall d,
             totalQueries (metadata (state (run nts ops d)))
             = (totalQueries (metadata (state d)) + count_queries ops)%N).
  { induction ops as [| o rest IH]; intros d.
    - cbn. lia.
    - cbn [run fold_left].
      assert (Ho : without_reconstruction [o] = true)
        by (destruct o; try reflexivity; discriminate).
      assert (Hrest : without_reconstruction rest = true)
        by (destruct o; try exact Hno; discriminate).
      fold (run nts rest (perform nts o d)).
      rewrite (IH Hrest), (perform_totalQueries nts o d Ho).
      destruct o; cbn [count_queries]; lia. }
  rewrite H. cbn. reflexivity.
Qed.

(** X5: when something is thrown inside the [try] block, [query] has
    counted the query in memory but has written nothing to storage, and
    the history, the cache-hit counter and the connection flags are as
    before. *)
Theorem failed_query_is_not_persisted (nts : float -> string)
  (c : Collaborators) (p : Platform) (userMessage : string)
  (d d1 : DurableObject) (e : thrown) :
  query_body nts c p userMessage (entered p d) = (Throws e, d1) ->
  storage (snd (query nts c p userMessage d)) = storage d
  /\ conversationHistory (state (snd (query nts c p userMessage d)))
     = conversationHistory (state d)
  /\ cacheHits (metadata (state (snd (query nts c p userMessage d))))
     = cacheHits (metadata (state d))
  /\ totalQueries (metadata (state (snd (query nts c p userMessage d))))
     = (totalQueries (metadata (state d)) + 1)%N.
Proof.
  rewrite query_enters. unfold mtry. intros Hbody. rewrite Hbody.
  cbn [snd ret Method_Monad].
  revert Hbody. unfold entered. unfold_methods.
  split_calls; cbn; intros [= <- <-]; cbn; repeat split; reflexivity.
Qed.

(** X6: when the write to storage succeeds, the state is in storage after
    [clearHistory], after [connectMCPs] and after every query whose [try]
    block returns; and constructing the object again over a stored state
    brings back exactly that state. *)
Theorem saved_state_is_restored (p : Platform) (d : DurableObject) :
  (forall s, storage_put p s = Returns tt) ->
  persisted (snd (clearHistory p d))
  /\ persisted (snd (connectMCPs p d))
  /\ (forall nts c userMessage text d1,
         query_body nts c p userMessage (entered p d) = (Returns text, d1) ->
         persisted (snd (query nts c p userMessage d)))
  /\ (forall now d', persisted d' ->
         state (reconstruct now false d') = state d').
Proof.
  intros Hput. unfold persisted. split; [| split; [| split]].
  - unfold_methods. cbn. rewrite Hput. reflexivity.
  - unfold_methods. cbn. rewrite Hput. reflexivity.
  - intros nts c userMessage text d1.
    rewrite query_enters. unfold mtry. intros Hbody. rewrite Hbody.
    cbn [snd]. revert Hbody. unfold entered. unfold_methods.
    split_calls; cbn; try rewrite !Hput in *; try discriminate;
      intros [= <- <-]; reflexivity.
  - intros now d' Hd'. unfold reconstruct. cbn. rewrite Hd'. reflexivity.
Qed.

(** *** Strings *)

Lemma length_append (s1 s2 : string) :
  String.length (s1 +++ s2) = String.length s1 + String.length s2.
Proof.
  induction s1 as [| ch s1 IH]; cbn; [reflexivity | rewrite IH; reflexivity].
Qed.

Lemma length_substring_to (n : nat) (s : string) :
  String.length (substring_to n s) <= n.
Proof.
  unfold substring_to. revert s.
  induction n as [| n IH]; intros s; destruct s as [| ch s]; cbn; try lia.
  specialize (IH s). lia.
Qed.

Lemma length_join (sep : string) (bound : nat) (lines : list string) :
  Forall (fun line => String.length line <= bound) lines ->
  lines <> [] ->
  String.length (join sep lines) + String.length sep
  <= length lines * (bound + String.length sep).
Proof.
  unfold join. induction 1 as [| line rest Hline Hrest IH]; intros Hne.
  - contradiction.
  - destruct rest as [| next rest'].
    + cbn. lia.
    + change (String.concat sep (line :: next :: rest'))
        with (line +++ sep +++ String.concat sep (next :: rest')).
      rewrite !length_append.
      assert (Hne' : next :: rest' <> []) by discriminate.
      specialize (IH Hne'). cbn [length] in *. lia.
Qed.

Lemma length_context_line (msg : ChatMessage) :
  String.length (context_line msg) <= 211.
Proof.
  unfold context_line. rewrite !length_append.
  pose proof (length_substring_to 200 (content msg)).
  destruct (role msg); cbn; lia.
Qed.

Lemma getConversationContext_lines (d : DurableObject) :
  getConversationContext d
  = (Returns (join nl (map context_line
                         (slice_last 4 (conversationHistory (state d))))), d).
Proof.
  unfold_methods.
  destruct (slice_last 4 (conversationHistory (state d))); reflexivity.
Qed.

(** X7: the context given to the synthesizer is built from the last four
    messages of the history only, holds at most 847 characters, is empty
    for an empty history, and building it changes nothing. *)
Theorem context_window (d : DurableObject) :
  exists context,
    getConversationContext d = (Returns context, d)
    /\ String.length context <= 847
    /\ (conversationHistory (state d) = [] -> context = EmptyString)
    /\ (forall d',
           slice_last 4 (conversationHistory (state d'))
           = slice_last 4 (conversationHistory (state d)) ->
           fst (getConversationContext d') = Returns context).
Proof.
  eexists. split; [apply getConversationContext_lines |].
  split; [| split].
  - destruct (slice_last 4 (conversationHistory (state d))) as [| m rest] eqn:Hs.
    + cbn. lia.
    + pose proof (length_join nl 211 (map context_line (m :: rest))) as H.
      assert (Hlen : length (m :: rest) <= 4).
      { rewrite <- Hs, slice_last_length. lia. }
      rewrite length_map in H.
      assert (Hnl : String.length nl = 1) by reflexivity.
      rewrite Hnl in H.
      assert (Hall : Forall (fun line => String.length line <= 211)
                       (map context_line (m :: rest))).
      { apply Forall_map, Forall_forall. intros x _.
        apply length_context_line. }
      specialize (H Hall ltac:(discriminate)). nia.
  - intros ->. reflexivity.
  - intros d' Heq. rewrite getConversationContext_lines, Heq. reflexivity.
Qed.

(** X8: [getHistory] returns the most recent messages, at most 10 of them
    and all of them when the history is that short, and changes nothing. *)
Theorem getHistory_recent (d : DurableObject) :
  exists older recent,
    getHistory d = (Returns recent, d)
    /\ conversationHistory (state d) = older ++ recent
    /\ length recent <= 10
    /\ (length (conversationHistory (state d)) <= 10 -> older = []).
Proof.
  exists (firstn (length (conversationHistory (state d)) - 10)
            (conversationHistory (state d))),
         (slice_last 10 (conversationHistory (state d))).
  split; [reflexivity |]. split; [| split].
  - unfold slice_last. symmetry. apply firstn_skipn.
  - rewrite slice_last_length. lia.
  - intros Hle.
    replace (length (conversationHistory (state d)) - 10) with 0 by lia.
    reflexivity.
Qed.

Lemma query_connections (nts : float -> string) (c : Collaborators)
  (p : Platform) (userMessage : string) (d : DurableObject) :
  mcpConnections (state (snd (query nts c p userMessage d)))
  = mcpConnections (state d).
Proof.
  unfold_methods. split_calls; reflexivity.
Qed.



(** ** Further properties of the semantic memory *)

(** X10: [search] reads the first 1000 characters of the query only: two
    queries that agree on them get the same answer from the cache. *)
Theorem search_reads_first_1000 (ai : Ai) (vectorize : VectorizeIndex)
  (query1 query2 : string) (threshold : float) :
  substring_to 1000 query1 = substring_to 1000 query2 ->
  search ai vectorize query1 threshold = search ai vectorize query2 threshold.
Proof.
  intros Heq. unfold search, generateEmbedding. rewrite Heq. reflexivity.
Qed.

Lemma generateEmbedding_returns (ai : Ai) (text : string) :
  exists embedding, generateEmbedding ai text = Returns embedding.
Proof.
  unfold generateEmbedding.
  destruct (run_embedding ai _) as [[[[[| first rest] |]] |] | e];
    cbn [otry bind ret outcome_Monad obind]; eexists; reflexivity.
Qed.

(** X11: [store] never throws: it returns whether the embedding call
    fails, answers nonsense or succeeds, and whether the insertion into the
    index fails or not. *)
Theorem store_never_throws (ai : Ai) (vectorize : VectorizeIndex)
  (normalize : string -> string) (now_id now_stored : Z)
  (question answer mcpSource : string) :
  store ai vectorize normalize now_id now_stored question answer mcpSource
  = Returns tt.
Proof.
  unfold store.
  destruct (generateEmbedding_returns ai question) as [[embedding |] ->];
    cbn [otry bind ret outcome_Monad obind]; [| reflexivity].
  destruct (vectorize_insert vectorize _) as [[] | e]; reflexivity.
Qed.

Lemma append_inj (s a b : string) : s +++ a = s +++ b -> a = b.
Proof.
  induction s as [| ch s IH]; cbn; intros H; [exact H |].
  injection H as H. apply IH. exact H.
Qed.

Lemma decimalZ_as_int (z : Z) :
  decimalZ z
  = NilZero.string_of_int
      (if (z <? 0)%Z then Decimal.Neg (N.to_uint (Z.abs_N z))
       else Decimal.Pos (N.to_uint (Z.abs_N z))).
Proof.
  unfold decimalZ, decimal. destruct (z <? 0)%Z; reflexivity.
Qed.

Lemma to_uint_nonnil (n : N) : N.to_uint n <> Decimal.Nil.
Proof.
  destruct n as [| q]; cbn; [discriminate |].
  apply DecimalPos.Unsigned.to_uint_nonnil.
Qed.

Lemma decimalZ_parses (z : Z) :
  NilZero.int_of_string (decimalZ z)
  = Some (if (z <? 0)%Z then Decimal.Neg (N.to_uint (Z.abs_N z))
          else Decimal.Pos (N.to_uint (Z.abs_N z))).
Proof.
  rewrite decimalZ_as_int.
  destruct (z <? 0)%Z; apply NilZero.isi; intros [= E];
    exact (to_uint_nonnil _ E).
Qed.

Lemma decimalZ_inj (z1 z2 : Z) : decimalZ z1 = decimalZ z2 -> z1 = z2.
Proof.
  intros H. apply (f_equal NilZero.int_of_string) in H.
  rewrite !decimalZ_parses in H.
  destruct (Z.ltb_spec z1 0), (Z.ltb_spec z2 0); try discriminate;
    injection H as H; apply DecimalN.Unsigned.to_uint_inj in H; lia.
Qed.

(** X12: the identifier of a stored entry depends on the question through
    its normal form only, and two entries stored for the same question at
    different times get different identifiers. *)
Theorem generateId_distinguishes_times (normalize : string -> string)
  (question : string) :
  (forall now question',
      normalize question = normalize question' ->
      generateId normalize now question = generateId normalize now question')
  /\ (forall now1 now2,
         now1 <> now2 ->
         generateId normalize now1 question
         <> generateId normalize now2 question).
Proof.
  split.
  - intros now question' Heq. unfold generateId. rewrite Heq. reflexivity.
  - intros now1 now2 Hne Heq. unfold generateId in Heq.
    apply append_inj, append_inj in Heq. apply decimalZ_inj in Heq.
    contradiction.
Qed.

Lemma toInt32_range (z : Z) : (- 2 ^ 31 <= toInt32 z < 2 ^ 31)%Z.
Proof.
  unfold toInt32.
  pose proof (Z.mod_pos_bound (z + 2 ^ 31) (2 ^ 32) ltac:(lia)). lia.
Qed.

Lemma simpleHash_loop_range (str : string) :
  forall hash,
    (- 2 ^ 31 <= hash < 2 ^ 31)%Z ->
    (- 2 ^ 31 <= simpleHash_loop str hash < 2 ^ 31)%Z.
Proof.
  induction str as [| ch rest IH]; intros hash Hrange; cbn [simpleHash_loop].
  - exact Hrange.
  - apply IH. apply toInt32_range.
Qed.

Lemma toString36_digits_grows (fuel : nat) :
  forall n acc,
    String.length acc <= String.length (toString36_digits fuel n acc).
Proof.
  induction fuel as [| fuel IH]; intros n acc; cbn [toString36_digits].
  - lia.
  - destruct (n / 36 =? 0)%N; [cbn; lia |].
    specialize (IH (n / 36)%N (String (digit36 (n mod 36)) acc)).
    cbn [String.length] in IH. lia.
Qed.

Lemma toString36_digits_length (fuel : nat) :
  forall n acc k,
    (n < 36 ^ N.of_nat k)%N -> 1 <= k ->
    String.length (toString36_digits fuel n acc) <= String.length acc + k.
Proof.
  induction fuel as [| fuel IH]; intros n acc k Hn Hk;
    cbn [toString36_digits].
  - lia.
  - destruct (N.eqb_spec (n / 36) 0) as [Hz | Hnz]; [cbn; lia |].
    assert (Hk2 : 2 <= k).
    { destruct k as [| [| k']]; try lia.
      exfalso. apply Hnz. apply N.div_small. exact Hn. }
    specialize (IH (n / 36)%N (String (digit36 (n mod 36)) acc) (k - 1)).
    cbn [String.length] in IH.
    assert (Hdiv : (n / 36 < 36 ^ N.of_nat (k - 1))%N).
    { apply N.Div0.div_lt_upper_bound.
      replace (36 * 36 ^ N.of_nat (k - 1))%N with (36 ^ N.of_nat k)%N;
        [exact Hn |].
      replace (N.of_nat k) with (N.succ (N.of_nat (k - 1))) by lia.
      rewrite N.pow_succ_r'. reflexivity. }
    specialize (IH Hdiv ltac:(lia)). lia.
Qed.

(** X13: the hash stays a signed 32-bit integer however long the text is,
    so [simpleHash] always returns between one and six characters. *)
Theorem simpleHash_short (str : string) :
  (- 2 ^ 31 <= simpleHash_loop str 0 < 2 ^ 31)%Z
  /\ 1 <= String.length (simpleHash str) <= 6.
Proof.
  assert (Hrange : (- 2 ^ 31 <= simpleHash_loop str 0 < 2 ^ 31)%Z)
    by (apply simpleHash_loop_range; lia).
  split; [exact Hrange |].
  unfold simpleHash, toString36. split.
  - cbn [toString36_digits].
    destruct (_ / 36 =? 0)%N; [cbn; lia |].
    pose proof (toString36_digits_grows
                  (N.size_nat (Z.abs_N (simpleHash_loop str 0)))
                  (Z.abs_N (simpleHash_loop str 0) / 36)%N
                  (String (digit36 (Z.abs_N (simpleHash_loop str 0) mod 36))
                     EmptyString)) as H.
    cbn [String.length] in H. lia.
  - pose proof (toString36_digits_length
                  (S (N.size_nat (Z.abs_N (simpleHash_loop str 0))))
                  (Z.abs_N (simpleHash_loop str 0)) EmptyString 6) as H.
    cbn [String.length] in H. apply H; [| lia].
    change (36 ^ N.of_nat 6)%N with 2176782336%N. lia.
Qed.

(** ** Further properties of the orchestrator *)

Lemma mapped_type_and_target (toolName : string) :
  (mapToolToIntentType toolName = general <-> mapToolToMCP toolName = None)
  /\ mapToolToIntentType toolName <> performance
  /\ mapToolToIntentType toolName <> api_reference
  /\ mapToolToIntentType toolName <> inspect_config.
Proof.
  unfold mapToolToIntentType, mapToolToMCP, intent_type_table, mcp_table.
  cbn [own_property].
  destruct (String.eqb "query_observability" toolName);
    [repeat split; discriminate |].
  destruct (String.eqb "search_docs" toolName);
    [repeat split; discriminate |].
  destruct (String.eqb "query_bindings" toolName);
    [repeat split; discriminate |].
  destruct (inherited toolName); repeat split; try discriminate; reflexivity.
Qed.

(** X14: [classifyIntent] never throws, and the intent it returns is
    consistent: its type is general exactly when it names no target, an
    intent with a target has confidence 0.9, and the types performance,
    api_reference and inspect_config are never produced. *)
Theorem classifyIntent_shape (ai : Ai) (query : string) :
  exists intent,
    classifyIntent ai query = Returns intent
    /\ (intent_type intent = general <-> targetMCP intent = None)
    /\ (forall target,
           targetMCP intent = Some target ->
           confidence intent = 0.9%float)
    /\ intent_type intent <> performance
    /\ intent_type intent <> api_reference
    /\ intent_type intent <> inspect_config.
Proof.
  unfold classifyIntent.
  destruct (run_hermes ai _) as [[[[[| toolCall others] |]] |] | e];
    cbn [otry bind ret outcome_Monad obind];
    eexists; (split; [reflexivity |]); cbn [intent_type targetMCP confidence];
    try (repeat split; (discriminate || reflexivity)).
  destruct (mapped_type_and_target (tool_name toolCall))
    as (Hiff & Hp & Ha & Hi).
  repeat split; try assumption; apply Hiff.
Qed.

Lemma createFallbackResponse_nonempty (JSON_stringify : MCPData -> string)
  (query : string) (mcpData : MCPData) :
  nonempty (createFallbackResponse JSON_stringify query mcpData) = true.
Proof.
  unfold createFallbackResponse. destruct (data_present mcpData); reflexivity.
Qed.

Lemma synthesize_returns (ai : Ai) (JSON_stringify : MCPData -> string)
  (query : string) (mcpData : MCPData) (context : string) :
  exists text,
    synthesize ai JSON_stringify query mcpData context = Returns text
    /\ nonempty text = true.
Proof.
  unfold synthesize.
  destruct (run_llama ai _ 1024%N 0.7%float) as [[[[text |]] |] | e];
    cbn [otry bind ret outcome_Monad obind];
    try destruct (nonempty text) eqn:Hne; eexists;
    (split; [reflexivity |]);
    first [exact Hne | apply createFallbackResponse_nonempty].
Qed.

(** X15: [synthesize] never throws and never returns an empty text.  It
    asks the generation oracle with the system prompt, the previous
    context if there is one, the serialized data if there is some, and the
    query, for at most 1024 tokens at temperature 0.7; it returns the
    oracle's text when that is a non-empty text, and in every other case
    (the call throws, the response is falsy, its text is missing or empty)
    the fallback: the raw data after a fixed sentence when there is data,
    a fixed apology when there is none. *)
Theorem synthesize_always_answers (ai : Ai)
  (JSON_stringify : MCPData -> string)
  (query : string) (mcpData : MCPData) (context : string) :
  let messages :=
    [ {| msg_role := system; msg_content := SYSTEM_PROMPT |} ]
    ++ match context with
       | EmptyString => []
       | String _ _ =>
           [ {| msg_role := system;
                msg_content := "Previous context: " +++ context |} ]
       end
    ++ match mcpData with
       | data_null => []
       | _ =>
           [ {| msg_role := system;
                msg_content :=
                  "MCP Server Response:" +++ nl +++ JSON_stringify mcpData |} ]
       end
    ++ [ {| msg_role := user; msg_content := query |} ] in
  let fallback :=
    match mcpData with
    | data_null =>
        "I apologize, but I encountered an error processing your request. Please try again or rephrase your question."
    | _ =>
        "I found some information related to your query, but I'm having trouble formatting it. Here's the raw data:"
          +++ nl +++ nl +++ JSON_stringify mcpData
    end in
  (exists text,
      synthesize ai JSON_stringify query mcpData context = Returns text
      /\ nonempty text = true)
  /\ (forall ch rest,
         run_llama ai messages 1024%N 0.7%float
         = Returns (Some {| response := Some (String ch rest) |}) ->
         synthesize ai JSON_stringify query mcpData context
         = Returns (String ch rest))
  /\ (run_llama ai messages 1024%N 0.7%float
      = Returns (Some {| response := Some EmptyString |}) ->
      synthesize ai JSON_stringify query mcpData context = Returns fallback)
  /\ (run_llama ai messages 1024%N 0.7%float
      = Returns (Some {| response := None |}) ->
      synthesize ai JSON_stringify query mcpData context = Returns fallback)
  /\ (run_llama ai messages 1024%N 0.7%float = Returns None ->
      synthesize ai JSON_stringify query mcpData context = Returns fallback)
  /\ (forall e,
         run_llama ai messages 1024%N 0.7%float = Throws e ->
         synthesize ai JSON_stringify query mcpData context = Returns fallback).
Proof.
  cbv zeta.
  assert (Hmessages :
            forall A (k : list LLMMessage -> A),
              k ([ {| msg_role := system; msg_content := SYSTEM_PROMPT |} ]
                 ++ (if nonempty context
                     then [ {| msg_role := system;
                               msg_content := "Previous context: " +++ context |} ]
                     else [])
                 ++ (if data_present mcpData
                     then [ {| msg_role := system;
                               msg_content :=
                                 "MCP Server Response:" +++ nl
                                   +++ JSON_stringify mcpData |} ]
                     else [])
                 ++ [ {| msg_role := user; msg_content := query |} ])
              = k ([ {| msg_role := system; msg_content := SYSTEM_PROMPT |} ]
                   ++ match context with
                      | EmptyString => []
                      | String _ _ =>
                          [ {| msg_role := system;
                               msg_content := "Previous context: " +++ context |} ]
                      end
                   ++ match mcpData with
                      | data_null => []
                      | _ =>
                          [ {| msg_role := system;
                               msg_content :=
                                 "MCP Server Response:" +++ nl
                                   +++ JSON_stringify mcpData |} ]
                      end
                   ++ [ {| msg_role := user; msg_content := query |} ])).
  { intros A k. destruct context, mcpData; reflexivity. }
  assert (Hfallback :
            createFallbackResponse JSON_stringify query mcpData
            = match mcpData with
              | data_null =>
                  "I apologize, but I encountered an error processing your request. Please try again or rephrase your question."
              | _ =>
                  "I found some information related to your query, but I'm having trouble formatting it. Here's the raw data:"
                    +++ nl +++ nl +++ JSON_stringify mcpData
              end).
  { destruct mcpData; reflexivity. }
  split; [apply synthesize_returns |].
  unfold synthesize. cbv zeta.
  rewrite (Hmessages _ (fun m => otry (response <- run_llama ai m 1024%N 0.7%float ;; _) _)).
  rewrite Hfallback.
  repeat split; intros; rewrite H; reflexivity.
Qed.

Lemma generateResponse_nonempty (ai : Ai) (query : string) :
  exists text,
    generateResponse ai query = Returns text /\ nonempty text = true.
Proof.
  unfold generateResponse.
  destruct (run_llama ai _ 512%N 0.8%float) as [[[[text |]] |] | e];
    cbn [otry bind ret outcome_Monad obind];
    try destruct (nonempty text) eqn:Hne; eexists;
    (split; [reflexivity |]); first [exact Hne | reflexivity].
Qed.

(** X16: [generateResponse] never throws and never returns an empty
    text.  It asks the generation oracle with the system prompt and the
    query, for at most 512 tokens at temperature 0.8; it returns the
    oracle's text when that is a non-empty text, a fixed request for more
    details when the oracle returns without one (falsy response, missing or
    empty text), and a fixed apology when the call throws. *)
Theorem generateResponse_always_answers (ai : Ai) (query : string) :
  let messages :=
    [ {| msg_role := system; msg_content := SYSTEM_PROMPT |};
      {| msg_role := user; msg_content := query |} ] in
  let details :=
    "I understand your question, but I need more specific information to help. Could you provide more details?" in
  (exists text,
      generateResponse ai query = Returns text /\ nonempty text = true)
  /\ (forall ch rest,
         run_llama ai messages 512%N 0.8%float
         = Returns (Some {| response := Some (String ch rest) |}) ->
         generateResponse ai query = Returns (String ch rest))
  /\ (run_llama ai messages 512%N 0.8%float
      = Returns (Some {| response := Some EmptyString |}) ->
      generateResponse ai query = Returns details)
  /\ (run_llama ai messages 512%N 0.8%float
      = Returns (Some {| response := None |}) ->
      generateResponse ai query = Returns details)
  /\ (run_llama ai messages 512%N 0.8%float = Returns None ->
      generateResponse ai query = Returns details)
  /\ (forall e,
         run_llama ai messages 512%N 0.8%float = Throws e ->
         generateResponse ai query
         = Returns "I apologize, but I encountered an error processing your request. Please try rephrasing your question.").
Proof.
  cbv zeta. split; [apply generateResponse_nonempty |].
  unfold generateResponse.
  repeat split; intros; rewrite H; reflexivity.
Qed.

(** X17: every tool offered to the classifier is mapped, and only those
    are mapped to one of the three declared targets; for each of them the
    intent tables of the tool definitions agree with the orchestrator: the
    intent type leads back to the tool and to the same target. *)
Theorem tools_are_mapped (toolName : string) :
  (In toolName (map tool_def_name TOOLS) <->
   exists target, mapToolToMCP toolName = Some target /\ declared target = true)
  /\ (In toolName (map tool_def_name TOOLS) ->
      own_property INTENT_TO_TOOL_MAP
        (intent_type_name (mapToolToIntentType toolName))
      = Some toolName
      /\ exists target,
           mapToolToMCP toolName = Some target
           /\ own_property INTENT_TO_MCP_MAP
                (intent_type_name (mapToolToIntentType toolName))
              = Some (target_name target)).
Proof.
  split; [split |].
  - cbn. intros [<- | [<- | [<- | []]]]; eexists; split; reflexivity.
  - intros (target & Hmap & Hdeclared). revert Hmap.
    unfold mapToolToMCP, mcp_table. cbn [own_property map TOOLS tool_def_name In].
    destruct (String.eqb_spec "query_observability" toolName); [auto |].
    destruct (String.eqb_spec "search_docs" toolName); [auto |].
    destruct (String.eqb_spec "query_bindings" toolName); [auto |].
    destruct (inherited toolName); [| discriminate].
    intros [= <-]. discriminate.
  - cbn. intros [<- | [<- | [<- | []]]];
      (split; [reflexivity | eexists; split; reflexivity]).
Qed.

(** ** Further properties of the router *)

(** X18: for an intent without target [route] returns an empty result
    tagged documentation, not served from cache, whatever the providers
    are: none of them is called. *)
Theorem route_without_target (now : Z) (providers : Providers)
  (intent : Intent) (query : string) :
  targetMCP intent = None ->
  route now providers intent query
  = Returns {| source := documentation;
               data := data_null;
               result_timestamp := now;
               cached := false |}
  /\ forall others,
       route now others intent query = route now providers intent query.
Proof.
  intros Hnone. unfold route. rewrite Hnone. split; reflexivity.
Qed.

Lemma demo_route_returns (now : Z) (now_iso : string) (intent : Intent)
  (query : string) (target : MCPTarget) :
  targetMCP intent = Some target ->
  exists result,
    route now (demo_providers now now_iso) intent query = Returns result
    /\ source result = target.
Proof.
  intros Htarget. unfold route. rewrite Htarget.
  destruct target; cbn; eexists; split; reflexivity.
Qed.

(** X19: the router as the agent constructs it, with the demonstration
    providers, never throws; its result is tagged with the target of the
    intent, is never marked as served from cache, and carries an error
    payload exactly when the target is outside the three declared ones. *)
Theorem demo_route_tags_target (now : Z) (now_iso : string) (intent : Intent)
  (query : string) :
  exists result,
    route now (demo_providers now now_iso) intent query = Returns result
    /\ cached result = false
    /\ result_timestamp result = now
    /\ forall target,
         targetMCP intent = Some target ->
         source result = target
         /\ (declared target = true ->
             forall payload, data result <> data_error payload)
         /\ (declared target = false ->
             exists payload, data result = data_error payload).
Proof.
  unfold route.
  destruct (targetMCP intent) as [[| | | rendering] |];
    cbn; eexists; (split; [reflexivity |]);
    (split; [reflexivity |]); (split; [reflexivity |]);
    intros target [= <-]; cbn;
    (split; [reflexivity |]);
    (split; [try discriminate; intros _ payload; discriminate
            | try discriminate; intros _; eexists; reflexivity]).
Qed.

(** ** The agent with its collaborators as constructed *)

Lemma classifyIntent_returns (ai : Ai) (query : string) :
  exists intent, classifyIntent ai query = Returns intent.
Proof.
  unfold classifyIntent.
  destruct (run_hermes ai _) as [[[[[| toolCall others] |]] |] | e];
    cbn [otry bind ret outcome_Monad obind]; eexists; reflexivity.
Qed.

Lemma wired_miss_effect (ai : Ai) (vectorize : VectorizeIndex)
  (normalize : string -> string) (JSON_stringify : MCPData -> string)
  (now_id now_stored now_route : Z) (now_iso : string)
  (nts : float -> string) (p : Platform) (userMessage : string)
  (d : DurableObject) (intent : Intent) :
  search ai vectorize userMessage SIMILARITY_THRESHOLD = Returns None ->
  classifyIntent ai userMessage = Returns intent ->
  let c := wired ai vectorize normalize JSON_stringify
             now_id now_stored now_route now_iso in
  let d' := snd (query nts c p userMessage d) in
  exists text,
    fst (query nts c p userMessage d) = Returns text
    /\ nonempty text = true
    /\ conversationHistory (state d')
       = push_capped
           {| role := assistant; content := text;
              timestamp := now_assistant p |}
           (push_capped
              {| role := user; content := userMessage;
                 timestamp := now_user p |}
              (conversationHistory (state d)))
    /\ cacheHits (metadata (state d')) = cacheHits (metadata (state d))
    /\ match targetMCP intent with
       | Some target =>
           mcpCalls (metadata (state d'))
           = increment_call target (mcpCalls (metadata (state d)))
           /\ exists result,
                route now_route (demo_providers now_route now_iso) intent
                  userMessage = Returns result
                /\ synthesize ai JSON_stringify userMessage (data result)
                     (join nl
                        (map context_line
                           (slice_last 4 (conversationHistory (state d)))))
                   = Returns text
       | None =>
           mcpCalls (metadata (state d')) = mcpCalls (metadata (state d))
           /\ generateResponse ai userMessage = Returns text
       end.
Proof.
  intros Hmiss Hintent. cbv zeta.
  unfold query, query_body, addToHistory, incrementMCPCounter, saveState.
  cbn [bind ret Method_Monad wired semanticMemory_search semanticMemory_store
         llmOrchestrator_classifyIntent llmOrchestrator_synthesize
         llmOrchestrator_generateResponse mcpRouter_route].
  unfold mbind, mtry, await, update. cbn [state storage].
  rewrite Hmiss, Hintent.
  destruct (targetMCP intent) as [target |] eqn:Htarget.
  - destruct (demo_route_returns now_route now_iso intent userMessage target
                Htarget) as (result & Hroute & Hsource).
    rewrite Hroute. cbn [state storage]. rewrite getConversationContext_lines.
    cbn [state conversationHistory set_metadata].
    match goal with
    | |- context [synthesize ai JSON_stringify userMessage ?dt ?cx] =>
        destruct (synthesize_returns ai JSON_stringify userMessage dt cx)
          as (text & Hsyn & Hne); rewrite Hsyn
    end.
    exists text. rewrite store_returns. cbn [state storage].
    match goal with
    | |- context [storage_put p ?s] => destruct (storage_put p s)
    end; cbn; rewrite Hsource;
      (split; [reflexivity |]); (split; [exact Hne |]);
      (split; [reflexivity |]); (split; [reflexivity |]);
      (split; [reflexivity |]); exists result; (split; [reflexivity |]);
      exact Hsyn.
  - destruct (generateResponse_nonempty ai userMessage)
      as (text & Hgen & Hne).
    rewrite Hgen. exists text. rewrite store_returns. cbn [state storage].
    match goal with
    | |- context [storage_put p ?s] => destruct (storage_put p s)
    end; cbn; repeat split; (reflexivity || exact Hne).
Qed.

(** X20: with the collaborators as the constructor wires them, a query
    that misses the cache is always answered: [query] returns a non-empty
    text and records the user message and that text as one turn of the
    history; the cache-hit counter stays.  When the classifier names no
    target the text is the one of [generateResponse] and no call counter
    moves; when it names a target the text is the one [synthesize] makes
    of the router's data and of the context of the last four messages, the
    call counter of that target goes up by one and the two others stay
    (all three stay for a target outside the declared ones).  In
    particular a classification oracle that selects query_observability
    makes the observability counter go up by one. *)
Theorem wired_miss_records_turn (ai : Ai) (vectorize : VectorizeIndex)
  (normalize : string -> string) (JSON_stringify : MCPData -> string)
  (now_id now_stored now_route : Z) (now_iso : string)
  (nts : float -> string) (p : Platform) (userMessage : string)
  (d : DurableObject) :
  search ai vectorize userMessage SIMILARITY_THRESHOLD = Returns None ->
  let c := wired ai vectorize normalize JSON_stringify
             now_id now_stored now_route now_iso in
  let before := mcpCalls (metadata (state d)) in
  let after := mcpCalls (metadata (state (snd (query nts c p userMessage d)))) in
  exists intent text,
    classifyIntent ai userMessage = Returns intent
    /\ fst (query nts c p userMessage d) = Returns text
    /\ nonempty text = true
    /\ conversationHistory (state (snd (query nts c p userMessage d)))
       = push_capped
           {| role := assistant; content := text;
              timestamp := now_assistant p |}
           (push_capped
              {| role := user; content := userMessage;
                 timestamp := now_user p |}
              (conversationHistory (state d)))
    /\ cacheHits (metadata (state (snd (query nts c p userMessage d))))
       = cacheHits (metadata (state d))
    /\ match targetMCP intent with
       | Some target =>
           calls_observability after
           = (calls_observability before
              + match target with observability => 1 | _ => 0 end)%N
           /\ calls_documentation after
              = (calls_documentation before
                 + match target with documentation => 1 | _ => 0 end)%N
           /\ calls_bindings after
              = (calls_bindings before
                 + match target with bindings => 1 | _ => 0 end)%N
           /\ exists result,
                route now_route (demo_providers now_route now_iso) intent
                  userMessage = Returns result
                /\ synthesize ai JSON_stringify userMessage (data result)
                     (join nl
                        (map context_line
                           (slice_last 4 (conversationHistory (state d)))))
                   = Returns text
       | None =>
           after = before /\ generateResponse ai userMessage = Returns text
       end
    /\ (forall toolCall others,
           run_hermes ai
             [ {| msg_role := system; msg_content := classifier_instruction |};
               {| msg_role := user; msg_content := userMessage |} ]
           = Returns (Some {| tool_calls := Some (toolCall :: others) |}) ->
           tool_name toolCall = "query_observability" ->
           calls_observability after = (calls_observability before + 1)%N).
Proof.
  intros Hmiss. cbv zeta.
  destruct (classifyIntent_returns ai userMessage) as [intent Hintent].
  destruct (wired_miss_effect ai vectorize normalize JSON_stringify
              now_id now_stored now_route now_iso nts p userMessage d intent
              Hmiss Hintent)
    as (text & Hquery & Hne & Hhistory & Hhits & Hcalls).
  cbv zeta in Hquery, Hhistory, Hhits, Hcalls.
  exists intent, text.
  split; [exact Hintent |]. split; [exact Hquery |]. split; [exact Hne |].
  split; [exact Hhistory |]. split; [exact Hhits |].
  assert (Hcounters :
            match targetMCP intent with
            | Some target =>
                calls_observability
                  (mcpCalls (metadata (state (snd (query nts
                     (wired ai vectorize normalize JSON_stringify now_id
                        now_stored now_route now_iso) p userMessage d)))))
                = (calls_observability (mcpCalls (metadata (state d)))
                   + match target with observability => 1 | _ => 0 end)%N
                /\ calls_documentation
                     (mcpCalls (metadata (state (snd (query nts
                        (wired ai vectorize normalize JSON_stringify now_id
                           now_stored now_route now_iso) p userMessage d)))))
                   = (calls_documentation (mcpCalls (metadata (state d)))
                      + match target with documentation => 1 | _ => 0 end)%N
                /\ calls_bindings
                     (mcpCalls (metadata (state (snd (query nts
                        (wired ai vectorize normalize JSON_stringify now_id
                           now_stored now_route now_iso) p userMessage d)))))
                   = (calls_bindings (mcpCalls (metadata (state d)))
                      + match target with bindings => 1 | _ => 0 end)%N
            | None => True
            end).
  { destruct (targetMCP intent) as [target |]; [| exact I].
    destruct Hcalls as [-> _]. destruct target; cbn; repeat split; lia. }
  split.
  - destruct (targetMCP intent) as [target |].
    + destruct Hcounters as (Ho & Hd & Hb). destruct Hcalls as [_ Hsyn].
      repeat split; assumption.
    + exact Hcalls.
  - intros toolCall others Hrun Hname.
    assert (Htarget : targetMCP intent = Some observability).
    { unfold classifyIntent in Hintent. rewrite Hrun in Hintent.
      cbn [otry bind ret outcome_Monad obind] in Hintent.
      injection Hintent as <-. cbn [targetMCP]. rewrite Hname. reflexivity. }
    rewrite Htarget in Hcounters. destruct Hcounters as (Ho & _). exact Ho.
Qed.

(** ** The HTTP interface of the object *)

Lemma query_pair (nts : float -> string) (c : Collaborators) (p : Platform)
  (userMessage : string) (d : DurableObject) :
  exists text,
    query nts c p userMessage d
    = (Returns text, snd (query nts c p userMessage d)).
Proof.
  destruct (query_returns nts c p userMessage d) as [text Htext].
  exists text.
  destruct (query nts c p userMessage d) as [o d']. cbn in *.
  rewrite Htext. reflexivity.
Qed.

Lemma clearHistory_pair (p : Platform) (d : DurableObject) :
  clearHistory p d = (Returns tt, snd (clearHistory p d)).
Proof.
  unfold_methods. cbn.
  match goal with
  | |- context [storage_put p ?s] => destruct (storage_put p s)
  end; reflexivity.
Qed.

Lemma connectMCPs_pair (p : Platform) (d : DurableObject) :
  exists endpoints,
    connectMCPs p d = (Returns endpoints, snd (connectMCPs p d)).
Proof.
  unfold_methods. cbn.
  match goal with
  | |- context [storage_put p ?s] => destruct (storage_put p s)
  end; eexists; reflexivity.
Qed.

(** What a request does to the object is what the operation it asks for
    does, and nothing when it asks for none. *)
Lemma fetch_performs (nts : float -> string) (x : Exchange)
  (this_sessionId : string) (d : DurableObject) :
  snd (fetch nts (ex_collaborators x) (ex_platform x) this_sessionId
         (ex_now x) (ex_request x) d)
  = run nts (operation_of x) d.
Proof.
  unfold fetch, operation_of, mtry.
  destruct (_ && _).
  { cbn [bind ret Method_Monad]. unfold mbind, await.
    destruct (req_json (ex_request x)) as [parsed | e]; [| reflexivity].
    destruct (truthy (body_message parsed)) as [message |]; [| reflexivity].
    destruct (query_pair nts (ex_collaborators x) (ex_platform x) message d)
      as [text ->].
    reflexivity. }
  destruct (_ && _); [reflexivity |].
  destruct (_ && _).
  { cbn [bind ret Method_Monad]. unfold mbind.
    rewrite clearHistory_pair. reflexivity. }
  destruct (_ && _); [reflexivity |].
  destruct (_ && _); [| reflexivity].
  cbn [bind ret Method_Monad]. unfold mbind.
  destruct (connectMCPs_pair (ex_platform x) d) as [endpoints ->].
  reflexivity.
Qed.

(** X21: [fetch] never throws: it answers 200, 400, 404 or 500, and 500
    only when the body of a POST /query cannot be read, in which case the
    object is left as it was. *)
Theorem fetch_never_throws (nts : float -> string) (c : Collaborators)
  (p : Platform) (this_sessionId : string) (now : Z) (request : Request)
  (d : DurableObject) :
  exists answer,
    fst (fetch nts c p this_sessionId now request d) = Returns answer
    /\ In (status answer) [200; 400; 404; 500]%N
    /\ (status answer = 500%N ->
        req_path request = "/query" /\ req_method request = "POST"
        /\ (exists e, req_json request = Throws e)
        /\ snd (fetch nts c p this_sessionId now request d) = d).
Proof.
  unfold fetch, mtry.
  destruct (String.eqb_spec (req_path request) "/query") as [Hpath | Hpath];
    [destruct (String.eqb_spec (req_method request) "POST")
       as [Hmethod | Hmethod] |];
    cbn [andb].
  - cbn [bind ret Method_Monad]. unfold mbind, await.
    destruct (req_json request) as [parsed | e].
    + destruct (truthy (body_message parsed)) as [message |].
      * destruct (query_pair nts c p message d) as [text ->].
        eexists. split; [reflexivity |]. cbn.
        split; [auto | discriminate].
      * eexists. split; [reflexivity |]. cbn.
        split; [auto | discriminate].
    + eexists. split; [reflexivity |]. cbn.
      split; [auto 6 |]. intros _. repeat split; eauto.
  - destruct (_ && _); [| destruct (_ && _); [| destruct (_ && _);
      [| destruct (_ && _)]]];
      cbn [bind ret Method_Monad]; unfold mbind;
      try rewrite clearHistory_pair;
      try (destruct (connectMCPs_pair p d) as [endpoints ->]);
      eexists; (split; [reflexivity |]); cbn;
      (split; [auto 6 | discriminate]).
  - destruct (_ && _); [| destruct (_ && _); [| destruct (_ && _);
      [| destruct (_ && _)]]];
      cbn [bind ret Method_Monad]; unfold mbind;
      try rewrite clearHistory_pair;
      try (destruct (connectMCPs_pair p d) as [endpoints ->]);
      eexists; (split; [reflexivity |]); cbn;
      (split; [auto 6 | discriminate]).
Qed.

(** X22: a POST /query whose body has no message, or an empty one, is
    answered 400 "Message is required" and is not counted as a query: the
    object is left as it was. *)
Theorem fetch_rejects_missing_message (nts : float -> string)
  (c : Collaborators) (p : Platform) (this_sessionId : string) (now : Z)
  (request : Request) (parsed : RequestBody) (d : DurableObject) :
  req_path request = "/query" ->
  req_method request = "POST" ->
  req_json request = Returns parsed ->
  body_message parsed = None \/ body_message parsed = Some EmptyString ->
  fetch nts c p this_sessionId now request d
  = (Returns {| status := 400;
                body := json_error "Message is required" None;
                json_content_type := true;
                cors_headers := false |}, d).
Proof.
  intros Hpath Hmethod Hjson Hmessage.
  unfold fetch, mtry. rewrite Hpath, Hmethod.
  rewrite !String.eqb_refl. cbn [andb bind ret Method_Monad].
  unfold mbind, await. rewrite Hjson.
  destruct Hmessage as [-> | ->]; reflexivity.
Qed.

(** X23: a request for anything but the five routes of the object, a known
    path with another method included, is answered 404 "Not found" in
    plain text and leaves the object as it was. *)
Theorem fetch_unknown_route (nts : float -> string) (c : Collaborators)
  (p : Platform) (this_sessionId : string) (now : Z) (request : Request)
  (d : DurableObject) :
  routed request = false ->
  fetch nts c p this_sessionId now request d
  = (Returns {| status := 404;
                body := text_not_found;
                json_content_type := false;
                cors_headers := false |}, d).
Proof.
  unfold routed, agent_routes. cbn [existsb fst snd]. intros Hroute.
  repeat (apply Bool.orb_false_iff in Hroute;
          let H := fresh "H" in destruct Hroute as [H Hroute]).
  unfold fetch, mtry. rewrite H, H0, H1, H2, H3. reflexivity.
Qed.

(** X24: a POST /query with a message is answered 200 with the text that
    [query] returns for it and the counters as they are after the query;
    the total it reports is one more than before. *)
Theorem fetch_query_answer (nts : float -> string) (c : Collaborators)
  (p : Platform) (this_sessionId : string) (now : Z) (request : Request)
  (parsed : RequestBody) (message : string) (d : DurableObject) :
  req_path request = "/query" ->
  req_method request = "POST" ->
  req_json request = Returns parsed ->
  truthy (body_message parsed) = Some message ->
  exists text hits,
    query nts c p message d = (Returns text, snd (query nts c p message d))
    /\ fetch nts c p this_sessionId now request d
       = (Returns {| status := 200;
                     body := json_answer text this_sessionId now hits
                               (totalQueries (metadata (state d)) + 1)%N;
                     json_content_type := true;
                     cors_headers := false |},
          snd (query nts c p message d))
    /\ hits = cacheHits (metadata (state (snd (query nts c p message d)))).
Proof.
  intros Hpath Hmethod Hjson Hmessage.
  destruct (query_pair nts c p message d) as [text Hquery].
  exists text. eexists. split; [exact Hquery |]. split; [| reflexivity].
  unfold fetch, mtry. rewrite Hpath, Hmethod.
  rewrite !String.eqb_refl. cbn [andb bind ret Method_Monad].
  unfold mbind, await. rewrite Hjson, Hmessage, Hquery.
  unfold get_state. cbn [state].
  pose proof (query_effect nts c p message d) as Heff. cbv zeta in Heff.
  destruct Heff as (_ & Htotal & _). rewrite Htotal. reflexivity.
Qed.

Lemma serve_runs (nts : float -> string) (this_sessionId : string)
  (exchanges : list Exchange) :
  forall d,
    serve nts this_sessionId exchanges d
    = run nts (concat (map operation_of exchanges)) d.
Proof.
  induction exchanges as [| x rest IH]; intros d; [reflexivity |].
  cbn [serve fold_left map concat].
  fold (serve nts this_sessionId rest
          (snd (fetch nts (ex_collaborators x) (ex_platform x) this_sessionId
                  (ex_now x) (ex_request x) d))).
  rewrite IH, fetch_performs. unfold run. rewrite fold_left_app. reflexivity.
Qed.

(** X25: the invariants of a session hold after any sequence of HTTP
    requests served by a new agent: no more cache hits than queries, a
    history of at most 20 messages made of user/assistant turns, and never
    more queries counted than requests received. *)
Theorem serve_keeps_invariants (nts : float -> string) (id : string)
  (now : Z) (exchanges : list Exchange) :
  let s := state (serve nts id exchanges (new_agent id now)) in
  (cacheHits (metadata s) <= totalQueries (metadata s))%N
  /\ paired (conversationHistory s)
  /\ length (conversationHistory s) <= 20
  /\ (totalQueries (metadata s) <= N.of_nat (length exchanges))%N.
Proof.
  cbv zeta. rewrite serve_runs.
  destruct (run_ok nts (concat (map operation_of exchanges))
              (new_agent id now) (new_agent_ok id now))
    as [(Hle & Hpaired & Hlen) _].
  split; [exact Hle |]. split; [exact Hpaired |]. split; [exact Hlen |].
  assert (Hcount : forall d,
             (totalQueries
                (metadata
                   (state (run nts (concat (map operation_of exchanges)) d)))
              <= totalQueries (metadata (state d))
                 + N.of_nat (length exchanges))%N).
  { clear. induction exchanges as [| x rest IH]; intros d.
    - cbn. lia.
    - cbn [map concat]. unfold run. rewrite fold_left_app.
      fold (run nts (operation_of x) d).
      fold (run nts (concat (map operation_of rest))
              (run nts (operation_of x) d)).
      specialize (IH (run nts (operation_of x) d)).
      assert (Hx : (totalQueries (metadata (state (run nts (operation_of x) d)))
                    <= totalQueries (metadata (state d)) + 1)%N).
      { assert (Hop : operation_of x = []
                      \/ exists o, operation_of x = [o]
                                   /\ without_reconstruction [o] = true).
        { unfold operation_of.
          repeat match goal with
                 | |- context [if ?b then _ else _] => destruct b
                 | |- context [match ?o with _ => _ end] => destruct o
                 end; eauto. }
        destruct Hop as [-> | (o & -> & Hno)]; [cbn; lia |].
        cbn [run fold_left].
        rewrite (perform_totalQueries nts o d Hno).
        destruct o; cbn [count_queries]; lia. }
      cbn [length]. lia. }
  specialize (Hcount (new_agent id now)). cbn in Hcount. exact Hcount.
Qed.

(** ** Further concrete runs *)

Lemma totalQueries_counts_queries_witness :
  totalQueries
    (metadata (state (run example_nts example_ops (new_agent "session" 0%Z))))
  = 2%N.
Proof.
  apply (totalQueries_counts_queries example_nts "session" 0%Z example_ops).
  reflexivity.
Defined.

Lemma failed_query_is_not_persisted_witness :
  storage (snd (query example_nts (failing_search OtherThrown)
                  example_platform "again" (new_agent "session" 0%Z)))
  = None.
Proof.
  apply (proj1 (failed_query_is_not_persisted example_nts
                  (failing_search OtherThrown) example_platform "again"
                  (new_agent "session" 0%Z)
                  (entered example_platform (new_agent "session" 0%Z))
                  OtherThrown eq_refl)).
Defined.

Lemma saved_state_is_restored_witness :
  persisted (snd (clearHistory example_platform chatty_agent)).
Proof.
  apply (proj1 (saved_state_is_restored example_platform chatty_agent
                  (fun s => eq_refl))).
Defined.

Lemma context_window_witness :
  exists context,
    getConversationContext chatty_agent = (Returns context, chatty_agent)
    /\ fst (getConversationContext
              (append_messages (firstn 4 (skipn 2 twenty_five_messages))
                 (new_agent "other" 7%Z)))
       = Returns context.
Proof.
  destruct (context_window chatty_agent) as (context & Hc & _ & _ & Hw).
  exists context. split; [exact Hc |].
  apply Hw. reflexivity.
Defined.

Lemma getHistory_recent_witness :
  exists recent,
    getHistory chatty_agent = (Returns recent, chatty_agent)
    /\ conversationHistory (state chatty_agent) = recent.
Proof.
  destruct (getHistory_recent chatty_agent)
    as (older & recent & Hget & Hsplit & _ & Hshort).
  exists recent. split; [exact Hget |].
  rewrite Hsplit, (Hshort ltac:(cbn; lia)). reflexivity.
Defined.


Lemma search_reads_first_1000_witness :
  long_query "list my R2 buckets" <> long_query "show me error logs"
  /\ search thousand_ai (keyed_index 0.9%float)
       (long_query "list my R2 buckets") SIMILARITY_THRESHOLD
     = search thousand_ai (keyed_index 0.9%float)
         (long_query "show me error logs") SIMILARITY_THRESHOLD
  /\ search thousand_ai (keyed_index 0.9%float)
       (long_query "show me error logs") SIMILARITY_THRESHOLD
     = Returns (Some {| score := 0.9%float;
                        question := Some "How do I set up a KV namespace?";
                        answer := Some "Create it with wrangler.";
                        mcpSource := Some "documentation";
                        memory_timestamp := Some 1700000000000%Z |}).
Proof.
  split; [| split].
  - intros H. apply (f_equal (String.get 1000)) in H.
    vm_compute in H. discriminate.
  - apply (search_reads_first_1000 thousand_ai (keyed_index 0.9%float)
             (long_query "list my R2 buckets")
             (long_query "show me error logs") SIMILARITY_THRESHOLD).
    vm_compute. reflexivity.
  - vm_compute. reflexivity.
Defined.

Lemma generateId_distinguishes_times_witness :
  generateId example_normalize 1700000000150%Z "list my buckets"
  <> generateId example_normalize 1700000000151%Z "list my buckets".
Proof.
  apply (proj2 (generateId_distinguishes_times example_normalize
                  "list my buckets")
           1700000000150%Z 1700000000151%Z).
  discriminate.
Defined.

Lemma classifyIntent_shape_witness :
  exists intent,
    classifyIntent (selecting_ai "search_docs") "How do I set up KV?"
    = Returns intent
    /\ targetMCP intent = Some documentation
    /\ confidence intent = 0.9%float.
Proof.
  destruct (classifyIntent_shape (selecting_ai "search_docs")
              "How do I set up KV?") as (intent & Hi & _ & Hconf & _).
  exists intent. split; [exact Hi |].
  assert (Ht : targetMCP intent = Some documentation).
  { cbn in Hi. injection Hi as <-. reflexivity. }
  split; [exact Ht | exact (Hconf documentation Ht)].
Defined.

Lemma tools_are_mapped_witness :
  exists target,
    mapToolToMCP "query_bindings" = Some target /\ declared target = true.
Proof.
  apply (proj1 (proj1 (tools_are_mapped "query_bindings"))).
  cbn. auto.
Defined.

Lemma route_without_target_witness :
  route 5%Z failing_providers
    {| intent_type := general; confidence := 0.5%float;
       targetMCP := None; parameters := [] |} "hello"
  = Returns {| source := documentation; data := data_null;
               result_timestamp := 5%Z; cached := false |}.
Proof.
  apply (proj1 (route_without_target 5%Z failing_providers
                  {| intent_type := general; confidence := 0.5%float;
                     targetMCP := None; parameters := [] |} "hello" eq_refl)).
Defined.

Lemma demo_route_tags_target_witness :
  exists result,
    route 5%Z (demo_providers 5%Z "1970-01-01T00:00:00.005Z") logs_intent
      "show errors" = Returns result
    /\ source result = observability.
Proof.
  destruct (demo_route_tags_target 5%Z "1970-01-01T00:00:00.005Z" logs_intent
              "show errors") as (result & Hr & _ & _ & Ht).
  exists result. split; [exact Hr |].
  exact (proj1 (Ht observability eq_refl)).
Defined.

Lemma wired_miss_records_turn_witness :
  calls_observability
    (mcpCalls
       (metadata
          (state
             (snd (query example_nts
                     (example_wired (selecting_ai "query_observability")
                        empty_index)
                     example_platform "show errors"
                     (new_agent "session" 0%Z))))))
  = 1%N.
Proof.
  destruct (wired_miss_records_turn (selecting_ai "query_observability")
              empty_index example_normalize example_stringify
              1700000000150%Z 1700000000160%Z 1700000000120%Z
              "2023-11-14T22:13:20.120Z" example_nts example_platform
              "show errors" (new_agent "session" 0%Z) eq_refl)
    as (intent & text & _ & _ & _ & _ & _ & _ & Hselected).
  exact (Hselected {| tool_name := "query_observability";
                      tool_arguments := None |} [] eq_refl eq_refl).
Defined.

Lemma synthesize_always_answers_witness :
  synthesize example_ai example_stringify "show errors"
    (data_observability "show errors" "1h" "2023-11-14T22:13:20.120Z")
    "user: hello"
  = Returns "Workers run on the edge."
  /\ synthesize failing_llama_ai example_stringify "show errors"
       (data_observability "show errors" "1h" "2023-11-14T22:13:20.120Z")
       "user: hello"
     = Returns
         ("I found some information related to your query, but I'm having trouble formatting it. Here's the raw data:"
            +++ nl +++ nl +++ "{}")
  /\ synthesize failing_llama_ai example_stringify "show errors" data_null
       EmptyString
     = Returns "I apologize, but I encountered an error processing your request. Please try again or rephrase your question.".
Proof.
  split; [| split].
  - apply (proj1 (proj2 (synthesize_always_answers example_ai
                           example_stringify "show errors"
                           (data_observability "show errors" "1h"
                              "2023-11-14T22:13:20.120Z")
                           "user: hello"))).
    reflexivity.
  - apply (proj2 (proj2 (proj2 (proj2 (proj2
             (synthesize_always_answers failing_llama_ai
                example_stringify "show errors"
                (data_observability "show errors" "1h"
                   "2023-11-14T22:13:20.120Z")
                "user: hello")))))
             (ErrorObject "3040: Capacity temporarily exceeded")).
    reflexivity.
  - apply (proj2 (proj2 (proj2 (proj2 (proj2
             (synthesize_always_answers failing_llama_ai
                example_stringify "show errors" data_null EmptyString)))))
             (ErrorObject "3040: Capacity temporarily exceeded")).
    reflexivity.
Defined.

Lemma generateResponse_always_answers_witness :
  generateResponse example_ai "hello" = Returns "Workers run on the edge."
  /\ generateResponse failing_llama_ai "hello"
     = Returns "I apologize, but I encountered an error processing your request. Please try rephrasing your question."
  /\ generateResponse wordless_llama_ai "hello"
     = Returns "I understand your question, but I need more specific information to help. Could you provide more details?".
Proof.
  split; [| split].
  - apply (proj1 (proj2 (generateResponse_always_answers example_ai "hello"))).
    reflexivity.
  - apply (proj2 (proj2 (proj2 (proj2 (proj2
             (generateResponse_always_answers failing_llama_ai "hello")))))
             (ErrorObject "3040: Capacity temporarily exceeded")).
    reflexivity.
  - apply (proj1 (proj2 (proj2
             (generateResponse_always_answers wordless_llama_ai "hello")))).
    reflexivity.
Defined.

Lemma fetch_never_throws_witness :
  snd (fetch example_nts (example_wired example_ai empty_index)
         example_platform "session" 9%Z unreadable_request chatty_agent)
  = chatty_agent.
Proof.
  destruct (fetch_never_throws example_nts
              (example_wired example_ai empty_index) example_platform
              "session" 9%Z unreadable_request chatty_agent)
    as (answer & Ha & _ & H500).
  apply H500. cbn in Ha. injection Ha as <-. reflexivity.
Defined.

Lemma fetch_rejects_missing_message_witness :
  fetch example_nts (example_wired example_ai empty_index) example_platform
    "session" 9%Z (example_request "/query" "POST" (Some EmptyString))
    chatty_agent
  = (Returns {| status := 400;
                body := json_error "Message is required" None;
                json_content_type := true;
                cors_headers := false |}, chatty_agent).
Proof.
  apply (fetch_rejects_missing_message example_nts
           (example_wired example_ai empty_index) example_platform
           "session" 9%Z (example_request "/query" "POST" (Some EmptyString))
           {| body_message := Some EmptyString; body_sessionId := None |}
           chatty_agent eq_refl eq_refl eq_refl).
  right. reflexivity.
Defined.

Lemma fetch_unknown_route_witness :
  fetch example_nts (example_wired example_ai empty_index) example_platform
    "session" 9%Z (example_request "/query" "GET" (Some "hello")) chatty_agent
  = (Returns {| status := 404;
                body := text_not_found;
                json_content_type := false;
                cors_headers := false |}, chatty_agent).
Proof.
  apply (fetch_unknown_route example_nts
           (example_wired example_ai empty_index) example_platform
           "session" 9%Z (example_request "/query" "GET" (Some "hello"))
           chatty_agent).
  reflexivity.
Defined.

Lemma fetch_query_answer_witness :
  exists text hits,
    fst (fetch example_nts (example_wired example_ai empty_index)
           example_platform "session" 9%Z
           (example_request "/query" "POST" (Some "hello"))
           (new_agent "session" 0%Z))
    = Returns {| status := 200;
                 body := json_answer text "session" 9%Z hits 1%N;
                 json_content_type := true;
                 cors_headers := false |}.
Proof.
  destruct (fetch_query_answer example_nts
              (example_wired example_ai empty_index) example_platform
              "session" 9%Z (example_request "/query" "POST" (Some "hello"))
              {| body_message := Some "hello"; body_sessionId := None |}
              "hello" (new_agent "session" 0%Z)
              eq_refl eq_refl eq_refl eq_refl)
    as (text & hits & _ & Hfetch & _).
  exists text, hits. rewrite Hfetch. reflexivity.
Defined.

(** ** The Worker *)

Lemma forwarded_performs (nts : float -> string) (inner : Request)
  (ops : list Operation) (call : WorkerCall) :
  forwarded inner ops call ->
  forall this_sessionId now d,
    snd (fetch nts (call_collaborators call) (call_platform call)
           this_sessionId now inner d)
    = run nts ops d.
Proof.
  intros Hf this_sessionId now d.
  destruct Hf as [call message Hne | call | call | call].
  - pose proof (fetch_performs nts
                  {| ex_collaborators := call_collaborators call;
                     ex_platform := call_platform call;
                     ex_now := now;
                     ex_request :=
                       agent_request "/query" "POST" (Some message) |}
                  this_sessionId d) as H.
    unfold operation_of in H. cbn in H. rewrite Hne in H. exact H.
  - exact (fetch_performs nts
             {| ex_collaborators := call_collaborators call;
                ex_platform := call_platform call;
                ex_now := now;
                ex_request := agent_request "/history" "GET" None |}
             this_sessionId d).
  - exact (fetch_performs nts
             {| ex_collaborators := call_collaborators call;
                ex_platform := call_platform call;
                ex_now := now;
                ex_request := agent_request "/clear" "POST" None |}
             this_sessionId d).
  - exact (fetch_performs nts
             {| ex_collaborators := call_collaborators call;
                ex_platform := call_platform call;
                ex_now := now;
                ex_request := agent_request "/stats" "GET" None |}
             this_sessionId d).
Qed.

Lemma truthy_nonempty (v : option string) (s : string) :
  truthy v = Some s -> nonempty s = true.
Proof.
  destruct v as [t |]; cbn; [| discriminate].
  destruct (nonempty t) eqn:Hne; [| discriminate].
  intros [= <-]. exact Hne.
Qed.

(** A call to the Worker leaves the namespace alone, or replaces the
    object it addresses by what one of the four forwarded requests makes
    of it. *)
Lemma worker_fetch_namespace (nts : float -> string)
  (id_string : ObjectId -> string) (not_json : string)
  (call : WorkerCall) (ns : Namespace) :
  (addressed call = None
   /\ snd (worker_fetch nts id_string not_json call ns) = ns)
  \/ exists id inner ops,
       addressed call = Some id
       /\ forwarded inner ops call
       /\ snd (worker_fetch nts id_string not_json call ns)
          = put_object id
              (snd (fetch nts (call_collaborators call) (call_platform call)
                      (id_string id) (call_agent_now call) inner
                      (object_at id_string (call_constructed call) ns id)))
              ns.
Proof.
  unfold worker_fetch, addressed, object_at. cbv zeta.
  destruct (String.eqb (req_method (call_request call)) "OPTIONS");
    [left; split; reflexivity |].
  destruct (_ || _); [left; split; reflexivity |].
  unfold htry.
  destruct (_ && _); [left; split; reflexivity |].
  destruct (_ && _).
  { forward_to_object; cbn [snd option_map];
      first [ left; split; reflexivity
            | right; do 3 eexists; (split; [reflexivity |]);
              (split; [| reflexivity]);
              apply forwarded_query; eapply truthy_nonempty; eassumption ]. }
  destruct (_ && _).
  { forward_to_object; cbn [snd option_map];
      first [ left; split; reflexivity
            | right; do 3 eexists; (split; [reflexivity |]);
              (split; [| reflexivity]); apply forwarded_history ]. }
  destruct (_ && _).
  { forward_to_object; cbn [snd option_map];
      first [ left; split; reflexivity
            | right; do 3 eexists; (split; [reflexivity |]);
              (split; [| reflexivity]); apply forwarded_clear ]. }
  destruct (_ && _).
  { forward_to_object; cbn [snd option_map];
      first [ left; split; reflexivity
            | right; do 3 eexists; (split; [reflexivity |]);
              (split; [| reflexivity]); apply forwarded_stats ]. }
  destruct (_ && _); left; split; reflexivity.
Qed.

(** X26: the Worker answers every OPTIONS request, whatever its path, with
    an empty 200 carrying the CORS headers and touches no object; every
    other request under /api/ or /agent/ is answered without throwing, in
    JSON with the CORS headers, by 200, 400, 404 or 500. *)
Theorem worker_preflight_and_cors (nts : float -> string)
  (id_string : ObjectId -> string) (not_json : string)
  (call : WorkerCall) (ns : Namespace) :
  (req_method (call_request call) = "OPTIONS" ->
   worker_fetch nts id_string not_json call ns
   = (Returns {| status := 200; body := no_body;
                 json_content_type := false; cors_headers := true |}, ns))
  /\ (req_method (call_request call) <> "OPTIONS" ->
      req_path (call_request call) <> "/" ->
      String.prefix "/api/" (req_path (call_request call)) = true
      \/ String.prefix "/agent/" (req_path (call_request call)) = true ->
      exists answer,
        fst (worker_fetch nts id_string not_json call ns) = Returns answer
        /\ cors_headers answer = true
        /\ json_content_type answer = true
        /\ In (status answer) [200; 400; 404; 500]%N).
Proof.
  split.
  - intros Hmethod. unfold worker_fetch. cbv zeta. rewrite Hmethod.
    reflexivity.
  - intros Hmethod Hroot Hprefix. unfold worker_fetch. cbv zeta.
    apply String.eqb_neq in Hmethod, Hroot. rewrite Hmethod, Hroot.
    assert (Hassets : negb (String.prefix "/api/" (req_path (call_request call)))
                      && negb (String.prefix "/agent/"
                                 (req_path (call_request call)))
                      = false).
    { destruct Hprefix as [-> | ->]; [reflexivity |].
      apply Bool.andb_false_r. }
    rewrite Hassets. cbn [orb]. unfold htry.
    repeat match goal with
           | |- context [if ?b && ?b' then _ else _] => destruct (b && b')
           end;
      forward_to_object; cbn [fst snd ret Handler_Monad];
      eexists; (split; [reflexivity |]); cbn; auto 7.
Qed.

(** X27: any other request for the root or for a path outside /api/ and
    /agent/ is handed to the static assets: the Worker returns, or throws,
    what they do, and touches no object. *)
Theorem worker_serves_assets (nts : float -> string)
  (id_string : ObjectId -> string) (not_json : string)
  (call : WorkerCall) (ns : Namespace) :
  req_method (call_request call) <> "OPTIONS" ->
  req_path (call_request call) = "/"
  \/ (String.prefix "/api/" (req_path (call_request call)) = false
      /\ String.prefix "/agent/" (req_path (call_request call)) = false) ->
  worker_fetch nts id_string not_json call ns = (call_assets call, ns).
Proof.
  intros Hmethod Hpath. unfold worker_fetch. cbv zeta.
  apply String.eqb_neq in Hmethod. rewrite Hmethod.
  destruct Hpath as [-> | [-> ->]]; [reflexivity |].
  cbn [negb andb]. rewrite Bool.orb_true_r. reflexivity.
Qed.

Lemma ObjectId_eqb_eq (a b : ObjectId) : ObjectId_eqb a b = true -> a = b.
Proof.
  destruct a as [x | m], b as [y | n]; cbn; try discriminate.
  - intros H. apply String.eqb_eq in H. congruence.
  - intros H. apply N.eqb_eq in H. congruence.
Qed.

(** X28: sessions are isolated: a call to the Worker changes no object but
    the one it addresses, and none at all when it addresses none. *)
Theorem worker_isolates_sessions (nts : float -> string)
  (id_string : ObjectId -> string) (not_json : string)
  (call : WorkerCall) (ns : Namespace) (other : ObjectId) :
  addressed call <> Some other ->
  snd (worker_fetch nts id_string not_json call ns) other = ns other.
Proof.
  intros Hother.
  destruct (worker_fetch_namespace nts id_string not_json call ns)
    as [[_ ->] | (id & inner & ops & Haddr & _ & ->)]; [reflexivity |].
  unfold put_object.
  destruct (ObjectId_eqb id other) eqn:Heq; [| reflexivity].
  apply ObjectId_eqb_eq in Heq. subst other. contradiction.
Qed.

Lemma forwarded_keeps (nts : float -> string) (inner : Request)
  (ops : list Operation) (call : WorkerCall) (d : DurableObject) :
  forwarded inner ops call ->
  object_ok d /\ disconnected (state d) ->
  object_ok (run nts ops d) /\ disconnected (state (run nts ops d)).
Proof.
  intros Hf [Hok Hdis]. split; [apply run_ok; exact Hok |].
  unfold disconnected in *.
  destruct Hf as [call message Hne | call | call | call];
    cbn [run fold_left perform].
  - rewrite query_connections. exact Hdis.
  - exact Hdis.
  - rewrite clearHistory_saves, (proj1 (saving_storage _ _ d)). exact Hdis.
  - exact Hdis.
Qed.

Lemma worker_run_keeps (nts : float -> string)
  (id_string : ObjectId -> string) (not_json : string)
  (calls : list WorkerCall) :
  forall ns,
    (forall id d, ns id = Some d -> object_ok d /\ disconnected (state d)) ->
    forall id d,
      worker_run nts id_string not_json calls ns id = Some d ->
      object_ok d /\ disconnected (state d).
Proof.
  induction calls as [| call rest IH]; intros ns Hns; [exact Hns |].
  cbn [worker_run fold_left].
  fold (worker_run nts id_string not_json rest
          (snd (worker_fetch nts id_string not_json call ns))).
  apply IH. intros id d.
  destruct (worker_fetch_namespace nts id_string not_json call ns)
    as [[_ ->] | (target & inner & ops & _ & Hf & ->)]; [apply Hns |].
  unfold put_object.
  destruct (ObjectId_eqb target id); [| apply Hns].
  intros [= <-]. rewrite (forwarded_performs nts inner ops call Hf).
  apply (forwarded_keeps nts inner ops call _ Hf).
  unfold object_at. destruct (ns target) as [d0 |] eqn:Hd0.
  - exact (Hns target d0 Hd0).
  - split; [apply new_agent_ok | reflexivity].
Qed.

(** X29: whatever requests the Worker receives, every object it has
    constructed keeps the invariants of a session (no more cache hits than
    queries, a history of at most 20 messages made of turns) and has no
    connection flag set: the Worker never forwards a request to the
    /connect route of an object. *)
Theorem worker_objects_stay_disconnected (nts : float -> string)
  (id_string : ObjectId -> string) (not_json : string)
  (calls : list WorkerCall) (id : ObjectId) (d : DurableObject) :
  worker_run nts id_string not_json calls empty_namespace id = Some d ->
  (cacheHits (metadata (state d)) <= totalQueries (metadata (state d)))%N
  /\ paired (conversationHistory (state d))
  /\ length (conversationHistory (state d)) <= 20
  /\ disconnected (state d).
Proof.
  intros Hd.
  destruct (worker_run_keeps nts id_string not_json calls empty_namespace
              ltac:(discriminate) id d Hd)
    as [[(Hle & Hpaired & Hlen) _] Hdis].
  repeat split; assumption.
Qed.

Lemma fetch_query_pair (nts : float -> string) (c : Collaborators)
  (p : Platform) (this_sessionId : string) (now : Z) (message : string)
  (d : DurableObject) :
  nonempty message = true ->
  exists text,
    query nts c p message d = (Returns text, snd (query nts c p message d))
    /\ fetch nts c p this_sessionId now
         (agent_request "/query" "POST" (Some message)) d
       = (Returns
            (json_response 200
               (json_answer text this_sessionId now
                  (cacheHits (metadata (state (snd (query nts c p message d)))))
                  (totalQueries
                     (metadata (state (snd (query nts c p message d))))))),
          snd (query nts c p message d)).
Proof.
  intros Hne. destruct (query_pair nts c p message d) as [text Hquery].
  exists text. split; [exact Hquery |].
  unfold fetch, mtry. cbn [agent_request req_path req_method req_json].
  cbn [String.eqb Ascii.eqb Bool.eqb andb bind ret Method_Monad].
  unfold mbind, await. cbn [truthy body_message]. rewrite Hne, Hquery.
  reflexivity.
Qed.

(** X30: a POST /api/chat with a message and a session identifier is a
    query to the object of that name, constructed if need be: the Worker
    answers 200 with the text [query] returns and the counters after it,
    and the object of that name is left as [query] leaves it. *)
Theorem worker_chat_queries_session (nts : float -> string)
  (id_string : ObjectId -> string) (not_json : string)
  (call : WorkerCall) (ns : Namespace) (parsed : RequestBody)
  (message sessionId : string) :
  req_path (call_request call) = "/api/chat" ->
  req_method (call_request call) = "POST" ->
  req_json (call_request call) = Returns parsed ->
  truthy (body_message parsed) = Some message ->
  truthy (body_sessionId parsed) = Some sessionId ->
  let id := id_of_name sessionId in
  let before := object_at id_string (call_constructed call) ns id in
  let after :=
    snd (query nts (call_collaborators call) (call_platform call) message
           before) in
  exists text,
    fst (query nts (call_collaborators call) (call_platform call) message
           before) = Returns text
    /\ worker_fetch nts id_string not_json call ns
       = (Returns
            {| status := 200;
               body := json_answer text (id_string id) (call_agent_now call)
                         (cacheHits (metadata (state after)))
                         (totalQueries (metadata (state before)) + 1)%N;
               json_content_type := true;
               cors_headers := true |},
          put_object id after ns).
Proof.
  intros Hpath Hmethod Hjson Hmessage Hsession. cbv zeta.
  destruct (fetch_query_pair nts (call_collaborators call)
              (call_platform call) (id_string (id_of_name sessionId))
              (call_agent_now call) message
              (object_at id_string (call_constructed call) ns
                 (id_of_name sessionId))
              (truthy_nonempty _ _ Hmessage)) as (text & Hquery & Hfetch).
  exists text. split; [rewrite Hquery; reflexivity |].
  unfold worker_fetch. cbv zeta. rewrite Hpath, Hmethod.
  assert (H1 : String.eqb "POST" "OPTIONS" = false) by reflexivity.
  assert (H2 : String.eqb "/api/chat" "/"
               || (negb (String.prefix "/api/" "/api/chat")
                   && negb (String.prefix "/agent/" "/api/chat")) = false)
    by reflexivity.
  assert (H3 : String.eqb "/api/chat" "/api/welcome"
               && String.eqb "POST" "GET" = false) by reflexivity.
  assert (H4 : String.eqb "/api/chat" "/api/chat"
               && String.eqb "POST" "POST" = true) by reflexivity.
  rewrite H1, H2, H3, H4.
  unfold htry. cbn [bind ret Handler_Monad]. unfold hbind, hawait.
  rewrite Hjson, Hmessage, Hsession. unfold stub_fetch.
  fold (object_at id_string (call_constructed call) ns (id_of_name sessionId)).
  rewrite Hfetch. cbn [fst snd response_json json_response body].
  pose proof (query_effect nts (call_collaborators call) (call_platform call)
                message
                (object_at id_string (call_constructed call) ns
                   (id_of_name sessionId))) as Heff.
  cbv zeta in Heff. destruct Heff as (_ & Htotal & _). rewrite Htotal.
  reflexivity.
Qed.

Lemma worker_preflight_and_cors_witness :
  exists answer,
    fst (worker_fetch example_nts example_id_string "not JSON"
           (example_call (example_request "/agent/connect" "POST" None))
           empty_namespace)
    = Returns answer
    /\ cors_headers answer = true
    /\ json_content_type answer = true
    /\ In (status answer) [200; 400; 404; 500]%N.
Proof.
  apply (proj2 (worker_preflight_and_cors example_nts example_id_string
                  "not JSON"
                  (example_call (example_request "/agent/connect" "POST" None))
                  empty_namespace)).
  - discriminate.
  - discriminate.
  - right. reflexivity.
Defined.

Lemma worker_serves_assets_witness :
  worker_fetch example_nts example_id_string "not JSON"
    (example_call (example_request "/chat.js" "GET" None)) empty_namespace
  = (Returns {| status := 200; body := asset "index.html";
                json_content_type := false; cors_headers := false |},
     empty_namespace).
Proof.
  apply (worker_serves_assets example_nts example_id_string "not JSON"
           (example_call (example_request "/chat.js" "GET" None))
           empty_namespace).
  - discriminate.
  - right. split; reflexivity.
Defined.

Lemma worker_isolates_sessions_witness :
  snd (worker_fetch example_nts example_id_string "not JSON" chat_call
         empty_namespace) (id_of_name "bob")
  = None.
Proof.
  apply (worker_isolates_sessions example_nts example_id_string "not JSON"
           chat_call empty_namespace (id_of_name "bob")).
  discriminate.
Defined.

Lemma worker_objects_stay_disconnected_witness :
  disconnected (state alice_object)
  /\ (cacheHits (metadata (state alice_object))
      <= totalQueries (metadata (state alice_object)))%N.
Proof.
  destruct (worker_objects_stay_disconnected example_nts example_id_string
              "not JSON" [chat_call] (id_of_name "alice") alice_object
              eq_refl) as (Hle & _ & _ & Hdis).
  split; [exact Hdis | exact Hle].
Defined.

Lemma worker_chat_queries_session_witness :
  exists text hits,
    fst (worker_fetch example_nts example_id_string "not JSON" chat_call
           empty_namespace)
    = Returns {| status := 200;
                 body := json_answer text "name:alice" 1700000000400%Z hits 1%N;
                 json_content_type := true;
                 cors_headers := true |}.
Proof.
  destruct (worker_chat_queries_session example_nts example_id_string
              "not JSON" chat_call empty_namespace
              {| body_message := Some "hello"; body_sessionId := Some "alice" |}
              "hello" "alice" eq_refl eq_refl eq_refl eq_refl eq_refl)
    as (text & _ & Hfetch).
  exists text. eexists. rewrite Hfetch. reflexivity.
Defined.
